(** * Insecure Wallet Flow Playground: the two wallet servers, embedded

    A shallow embedding of the two Express servers of the repository:

    - [Insecure]: [server.js], the variant with the documented
      vulnerabilities;
    - [Secure]: [server-secure.js], the remediated variant (its listing is
      carried in the repository's contribution guide).

    JavaScript numbers are IEEE-754 binary64 values: they are embedded as
    Rocq's primitive [float]s, so [sender.balance -= amount] is the binary64
    subtraction the engine performs.  The two in-memory arrays [users] and
    [transactions] are lists; an object found with [users.find] is referred
    to by its index, and a field assignment through the reference is an
    in-place update at that index, so that two references to the same
    object alias as they do in the source.

    A handler is a function from the store and the parts of the request it
    reads to the store it leaves and the response it sends.  The fields of
    a request body are typed: a string field is a string or absent, a
    number field is a number or absent.  Strings are sequences of one-byte
    characters.  What the servers obtain from outside (the jsonwebtoken and
    bcryptjs libraries, [uuidv4()], the clock, the client address) is taken
    as a parameter; on such inputs nothing in a handler throws, so the
    [try]/[catch] wrappers of [server-secure.js] are left out. *)

From Stdlib Require Import Floats ZArith QArith Lqa Ascii.
From stdpp Require Import base list strings option gmap.

Local Open Scope string_scope.
Local Open Scope list_scope.

Set Warnings "-register-all,-inexact-float".

(** ** JSON values, as the handlers send them with [res.json] *)

Inductive json : Type :=
| JNum (x : float)
| JStr (s : string)
| JArr (items : list json)
| JObj (fields : list (string * json)).

(** A field whose value is [undefined] is left out by [JSON.stringify]. *)
Definition opt_field (k : string) (v : option string) : list (string * json) :=
  match v with
  | Some s => [(k, JStr s)]
  | None => []
  end.

Fixpoint get_field (k : string) (fields : list (string * json)) : option json :=
  match fields with
  | [] => None
  | (k', v) :: rest => if String.eqb k k' then Some v else get_field k rest
  end.

Definition field (k : string) (j : json) : option json :=
  match j with
  | JObj fields => get_field k fields
  | _ => None
  end.

(** The key [k] names a field of the value, at any depth. *)
Fixpoint has_key (k : string) (j : json) : bool :=
  match j with
  | JArr items => existsb (has_key k) items
  | JObj fields => existsb (fun kv => String.eqb (fst kv) k || has_key k (snd kv)) fields
  | _ => false
  end.

(** A response: [res.status(code).json(body)]; [res.json(body)] is status 200. *)
Record response : Type := Response { status : nat; body : json }.

Definition error_body (msg : string) : json := JObj [("error", JStr msg)].

(** ** The data store *)

Record User : Type := mkUser {
  u_id : string;
  u_username : string;
  u_email : option string;
  u_password : string;
  u_balance : float;
  u_role : string;
  u_createdAt : option string
}.

Record Transaction : Type := mkTransaction {
  t_id : string;
  t_senderId : string;
  t_recipientId : string;
  t_amount : float;
  t_timestamp : string;
  t_type : string
}.

(** [let users = []; let transactions = [];] *)
Record store : Type := mkStore {
  users : list User;
  transactions : list Transaction
}.

(** The payload of a bearer token, [req.user] once verified. *)
Record Claims : Type := mkClaims {
  c_userId : string;
  c_username : string;
  c_role : string
}.

(** ** The external libraries

    [jwt_verify token secret] is [inr decoded], or [inl message] when
    [jwt.verify] throws an error with that [message]. *)

Record Externals : Type := mkExternals {
  bcrypt_hash : string -> nat -> string;
  bcrypt_compare : string -> string -> bool;
  jwt_sign : Claims -> string -> string;
  jwt_verify : string -> string -> string + Claims
}.

(** ** JavaScript helpers *)

(** [!x] for a number: true for [0], [-0] and [NaN]. *)
Definition falsy_num (x : float) : bool :=
  PrimFloat.eqb x 0 || PrimFloat.is_nan x.

(** [s.split(sep)] for a one-character separator: the pieces between its
    occurrences ([cur] holds the current piece, reversed). *)
Fixpoint split_aux (sep : ascii) (cur : string) (s : string) : list string :=
  match s with
  | EmptyString => [String.rev cur]
  | String c rest =>
      if Ascii.eqb c sep
      then String.rev cur :: split_aux sep "" rest
      else split_aux sep (String c cur) rest
  end.

Definition split (sep : ascii) (s : string) : list string := split_aux sep "" s.

(** The character [c] does not occur in [s]. *)
Fixpoint lacks (c : ascii) (s : string) : bool :=
  match s with
  | EmptyString => true
  | String c' rest => negb (Ascii.eqb c' c) && lacks c rest
  end.

(** [const token = authHeader && authHeader.split(' ')[1];] followed by
    [if (!token)]: [None] when the test [!token] succeeds. *)
Definition bearer_token (authHeader : option string) : option string :=
  match authHeader with
  | None => None
  | Some h =>
      match split " "%char h !! 1%nat with
      | Some t => if String.eqb t "" then None else Some t
      | None => None
      end
  end.

(** [users.find(user => user.id === id)], with the position of the object
    found: the reference through which the handlers then assign. *)
Definition findUserById (us : list User) (id : string) : option (nat * User) :=
  list_find (fun u => u_id u = id) us.

Definition findUserByUsername (us : list User) (name : string) : option (nat * User) :=
  list_find (fun u => u_username u = name) us.

Definition set_balance (b : float) (u : User) : User :=
  mkUser (u_id u) (u_username u) (u_email u) (u_password u) b (u_role u) (u_createdAt u).

Definition transaction_json (t : Transaction) : json :=
  JObj [("id", JStr (t_id t)); ("senderId", JStr (t_senderId t));
        ("recipientId", JStr (t_recipientId t)); ("amount", JNum (t_amount t));
        ("timestamp", JStr (t_timestamp t)); ("type", JStr (t_type t))].

(** [t => t.senderId === userId || t.recipientId === userId] *)
Definition involves (userId : string) (t : Transaction) : bool :=
  String.eqb (t_senderId t) userId || String.eqb (t_recipientId t) userId.

(** * [server.js]: the vulnerable variant *)

Module Insecure.

Definition JWT_SECRET : string := "secret123".

Section Handlers.

Variable E : Externals.

(** [POST /api/register] *)
Definition register (s : store) (username password email : option string)
    (uuid : string) : store * response :=
  match username, password with
  | Some name, Some pw =>
      if String.eqb name "" || String.eqb pw "" then
        (s, Response 400 (error_body "Username and password required"))
      else
        match findUserByUsername (users s) name with
        | Some _ => (s, Response 400 (error_body "User already exists"))
        | None =>
            let newUser := mkUser uuid name email (bcrypt_hash E pw 10) 1000 "user" None in
            (mkStore (users s ++ [newUser]) (transactions s),
             Response 201 (JObj [("message", JStr "User created successfully");
                                 ("user", JObj ([("id", JStr uuid); ("username", JStr name)]
                                                ++ opt_field "email" email
                                                ++ [("balance", JNum 1000); ("role", JStr "user")]))]))
        end
  | _, _ => (s, Response 400 (error_body "Username and password required"))
  end.

(** [POST /api/login] *)
Definition login (s : store) (username password : string) : response :=
  match findUserByUsername (users s) username with
  | None => Response 401 (error_body "Invalid credentials")
  | Some (_, user) =>
      if bcrypt_compare E password (u_password user) then
        Response 200 (JObj [("message", JStr "Login successful");
                            ("token", JStr (jwt_sign E (mkClaims (u_id user) (u_username user) (u_role user)) JWT_SECRET));
                            ("user", JObj [("id", JStr (u_id user)); ("username", JStr (u_username user));
                                           ("balance", JNum (u_balance user)); ("role", JStr (u_role user))])])
      else Response 401 (error_body "Invalid credentials")
  end.

(** The middleware [authenticateToken]: [inr decoded] when it calls
    [next()] with [req.user = decoded], [inl r] when it answers [r]. *)
Definition authenticateToken (authHeader : option string) : response + Claims :=
  match bearer_token authHeader with
  | None => inl (Response 401 (error_body "Access token required"))
  | Some token =>
      match jwt_verify E token JWT_SECRET with
      | inr decoded => inr decoded
      | inl message =>
          inl (Response 403 (JObj [("error", JStr "Invalid token"); ("details", JStr message)]))
      end
  end.

Definition profile_json (user : User) : json :=
  JObj ([("id", JStr (u_id user)); ("username", JStr (u_username user))]
        ++ opt_field "email" (u_email user)
        ++ [("balance", JNum (u_balance user)); ("role", JStr (u_role user))]).

(** [GET /api/user/:userId] *)
Definition get_user (s : store) (authHeader : option string) (userId : string) : response :=
  match authenticateToken authHeader with
  | inl r => r
  | inr _ =>
      match findUserById (users s) userId with
      | None => Response 404 (error_body "User not found")
      | Some (_, user) => Response 200 (profile_json user)
      end
  end.

(** [GET /api/balance/:userId] *)
Definition get_balance (s : store) (authHeader : option string) (userId : string) : response :=
  match authenticateToken authHeader with
  | inl r => r
  | inr _ =>
      match findUserById (users s) userId with
      | None => Response 404 (error_body "User not found")
      | Some (_, user) => Response 200 (JObj [("balance", JNum (u_balance user))])
      end
  end.

(** [sender.balance -= amount] and [recipient.balance += amount], each
    through its reference. *)
Definition debit (amount : float) (u : User) : User :=
  set_balance (u_balance u - amount)%float u.

Definition credit (amount : float) (u : User) : User :=
  set_balance (u_balance u + amount)%float u.

(** [POST /api/send]; [amount] is a JSON number or absent. *)
Definition send (s : store) (authHeader : option string)
    (recipientId : option string) (amount : option float)
    (uuid now : string) : store * response :=
  match authenticateToken authHeader with
  | inl r => (s, r)
  | inr decoded =>
      let senderId := c_userId decoded in
      match recipientId, amount with
      | Some rid, Some amt =>
          if String.eqb rid "" || falsy_num amt || (amt <=? 0)%float then
            (s, Response 400 (error_body "Valid recipient and amount required"))
          else
            match findUserById (users s) senderId, findUserById (users s) rid with
            | Some (i, sender), Some (j, _) =>
                if (u_balance sender <? amt)%float then
                  (s, Response 400 (error_body "Insufficient funds"))
                else
                  let users' := alter (credit amt) j (alter (debit amt) i (users s)) in
                  let transaction := mkTransaction uuid senderId rid amt now "transfer" in
                  let newBalance :=
                    match users' !! i with
                    | Some sender' => u_balance sender'
                    | None => u_balance sender
                    end in
                  (mkStore users' (transactions s ++ [transaction]),
                   Response 200 (JObj [("message", JStr "Transfer successful");
                                       ("transaction", transaction_json transaction);
                                       ("newBalance", JNum newBalance)]))
            | _, _ => (s, Response 404 (error_body "User not found"))
            end
      | _, _ => (s, Response 400 (error_body "Valid recipient and amount required"))
      end
  end.

(** [GET /api/transactions/:userId] *)
Definition get_transactions (s : store) (authHeader : option string) (userId : string) : response :=
  match authenticateToken authHeader with
  | inl r => r
  | inr _ =>
      Response 200 (JObj [("transactions",
                           JArr (map transaction_json (filter (fun t => involves userId t) (transactions s))))])
  end.

(** [GET /api/admin/users] *)
Definition admin_users (s : store) (authHeader : option string) : response :=
  match authenticateToken authHeader with
  | inl r => r
  | inr _ => Response 200 (JObj [("users", JArr (map profile_json (users s)))])
  end.

(** [POST /api/admin/modify-balance]; [newBalance] is a JSON number. *)
Definition admin_modify_balance (s : store) (authHeader : option string)
    (userId : string) (newBalance : float) : store * response :=
  match authenticateToken authHeader with
  | inl r => (s, r)
  | inr _ =>
      match findUserById (users s) userId with
      | None => (s, Response 404 (error_body "User not found"))
      | Some (i, user) =>
          (mkStore (alter (set_balance newBalance) i (users s)) (transactions s),
           Response 200 (JObj [("message", JStr "Balance updated successfully");
                               ("user", JObj [("id", JStr (u_id user)); ("username", JStr (u_username user));
                                              ("balance", JNum newBalance)])]))
      end
  end.

(** [GET /api/users] *)
Definition get_users (s : store) (authHeader : option string) : response :=
  match authenticateToken authHeader with
  | inl r => r
  | inr _ =>
      Response 200 (JObj [("users",
                           JArr (map (fun user => JObj [("id", JStr (u_id user));
                                                        ("username", JStr (u_username user))])
                                     (users s)))])
  end.

(** The callback of [app.listen]: the default admin account. *)
Definition listen (s : store) (uuid : string) : store :=
  mkStore (users s ++ [mkUser uuid "admin" (Some "admin@wallet.com")
                         (bcrypt_hash E "admin123" 10) 10000 "admin" None])
          (transactions s).

(** The requests that can change the store, and the store after one. *)
Inductive request : Type :=
| Register (username password email : option string) (uuid : string)
| Send (authHeader recipientId : option string) (amount : option float) (uuid now : string)
| ModifyBalance (authHeader : option string) (userId : string) (newBalance : float).

Definition handle (s : store) (req : request) : store * response :=
  match req with
  | Register username password email uuid => register s username password email uuid
  | Send authHeader recipientId amount uuid now => send s authHeader recipientId amount uuid now
  | ModifyBalance authHeader userId newBalance => admin_modify_balance s authHeader userId newBalance
  end.

(** Requests handled one after the other, each to completion. *)
Fixpoint serve (s : store) (reqs : list request) : store * list response :=
  match reqs with
  | [] => (s, [])
  | req :: rest =>
      let (s1, r) := handle s req in
      let (s2, rs) := serve s1 rest in
      (s2, r :: rs)
  end.

End Handlers.

End Insecure.

(** * [server-secure.js]: the remediated variant *)

Module Secure.

Definition JWT_EXPIRATION : string := "1h".
Definition RATE_LIMIT_WINDOW : Z := 15 * 60 * 1000.
Definition RATE_LIMIT_MAX_ATTEMPTS : nat := 5.

Record rate_entry : Type := mkRate { attempts : nat; resetTime : Z }.

(** The store, with [invalidatedTokens] (a [Set]) and [rateLimitStore]
    (a [Map] keyed by client address). *)
Record state : Type := mkState {
  db : store;
  invalidatedTokens : gset string;
  rateLimitStore : gmap string rate_entry
}.

Definition with_db (st : state) (d : store) : state :=
  mkState d (invalidatedTokens st) (rateLimitStore st).

(** [Math.round]: the nearest integer, a tie going towards +infinity; the
    argument itself when it is an integer, an infinity or [NaN].  The
    integer is computed exactly from the binary expansion [m * 2^e]. *)
Definition float_of_Z (n : Z) : float :=
  let a := PrimFloat.of_uint63 (Uint63.of_Z (Z.abs n)) in
  if (n <? 0)%Z then (- a)%float else a.

Definition Math_round (x : float) : float :=
  match Prim2SF x with
  | S754_finite sign m e =>
      if (0 <=? e)%Z then x
      else
        let sm := if sign then (- Z.pos m)%Z else Z.pos m in
        let n := ((2 * sm + 2 ^ (- e)) / 2 ^ (1 - e))%Z in
        if (n =? 0)%Z then (if sign then (-0)%float else 0%float)
        else float_of_Z n
  | _ => x
  end.

(** [Math.round(x * 100) / 100] *)
Definition round2 (x : float) : float := (Math_round (x * 100) / 100)%float.

(** White space removed by [trim], among the one-byte characters. *)
Definition is_space (c : ascii) : bool :=
  let n := nat_of_ascii c in
  (n =? 32)%nat || ((9 <=? n)%nat && (n <=? 13)%nat).

Fixpoint trim_start (s : string) : string :=
  match s with
  | String c rest => if is_space c then trim_start rest else s
  | EmptyString => EmptyString
  end.

Definition trim (s : string) : string :=
  String.rev (trim_start (String.rev (trim_start s))).

(** [replace(/[<>]/g, '')] *)
Fixpoint strip_angle (s : string) : string :=
  match s with
  | String c rest =>
      if Ascii.eqb c "<"%char || Ascii.eqb c ">"%char
      then strip_angle rest else String c (strip_angle rest)
  | EmptyString => EmptyString
  end.

Definition sanitizeInput (input : string) : string := strip_angle (trim input).

Definition is_lower (c : ascii) : bool :=
  let n := nat_of_ascii c in (97 <=? n)%nat && (n <=? 122)%nat.
Definition is_upper (c : ascii) : bool :=
  let n := nat_of_ascii c in (65 <=? n)%nat && (n <=? 90)%nat.
Definition is_digit (c : ascii) : bool :=
  let n := nat_of_ascii c in (48 <=? n)%nat && (n <=? 57)%nat.

(** The string has a character of the class [p]. *)
Fixpoint has_char (p : ascii -> bool) (s : string) : bool :=
  match s with
  | String c rest => p c || has_char p rest
  | EmptyString => false
  end.

(** [/(?=.*[a-z])(?=.*[A-Z])(?=.*\d)/.test(s)]: [.] stops at a line
    terminator, so the three characters must stand on one line.  [lo], [up]
    and [di] say what the current line has shown so far. *)
Definition is_line_end (c : ascii) : bool :=
  let n := nat_of_ascii c in (n =? 10)%nat || (n =? 13)%nat.

Fixpoint strong_line (lo up di : bool) (s : string) : bool :=
  match s with
  | String c rest =>
      if is_line_end c then strong_line false false false rest
      else
        let lo := lo || is_lower c in
        let up := up || is_upper c in
        let di := di || is_digit c in
        (lo && up && di) || strong_line lo up di rest
  | EmptyString => false
  end.

(** [validatePassword]: the message, or [None] for [null]. *)
Definition validatePassword (password : string) : option string :=
  if String.eqb password "" || (String.length password <? 8)%nat then
    Some "Password must be at least 8 characters long"
  else if negb (strong_line false false false password) then
    Some "Password must contain at least one uppercase letter, one lowercase letter, and one number"
  else None.

(** [/^[^\s@]+@[^\s@]+\.[^\s@]+$/.test(s)]: one [@], no white space, a
    non-empty local part, and after the [@] a dot with a character on each
    side. *)
Definition plain_char (c : ascii) : bool :=
  negb (is_space c) && negb (Ascii.eqb c "@"%char).

Fixpoint all_chars (p : ascii -> bool) (s : string) : bool :=
  match s with
  | String c rest => p c && all_chars p rest
  | EmptyString => true
  end.

Fixpoint inner_dot (s : string) : bool :=
  match s with
  | String c rest =>
      match rest with
      | EmptyString => false
      | String _ EmptyString => false
      | String d _ => Ascii.eqb d "."%char || inner_dot rest
      end
  | EmptyString => false
  end.

Definition emailRegex_test (s : string) : bool :=
  match split "@"%char s with
  | [loc; dom] =>
      negb (String.eqb loc "") && all_chars plain_char loc
      && all_chars plain_char dom && inner_dot dom
  | _ => false
  end.

Section Handlers.

Variable E : Externals.
Variable JWT_SECRET : string.

(** The middleware [rateLimit]: [None] when it calls [next()]. *)
Definition rateLimit (st : state) (clientIP : string) (now : Z) : state * option response :=
  let fresh := mkRate 1 (now + RATE_LIMIT_WINDOW) in
  match rateLimitStore st !! clientIP with
  | None =>
      (mkState (db st) (invalidatedTokens st) (<[clientIP := fresh]> (rateLimitStore st)), None)
  | Some clientData =>
      if (resetTime clientData <? now)%Z then
        (mkState (db st) (invalidatedTokens st) (<[clientIP := fresh]> (rateLimitStore st)), None)
      else if (RATE_LIMIT_MAX_ATTEMPTS <=? attempts clientData)%nat then
        (st, Some (Response 429 (error_body "Too many requests. Please try again later.")))
      else
        (mkState (db st) (invalidatedTokens st)
           (<[clientIP := mkRate (S (attempts clientData)) (resetTime clientData)]> (rateLimitStore st)),
         None)
  end.

(** [POST /api/register] *)
Definition register (st : state) (clientIP : string) (now : Z)
    (username password email : option string) (uuid createdAt : string) : state * response :=
  match rateLimit st clientIP now with
  | (st, Some r) => (st, r)
  | (st, None) =>
      match username, password, email with
      | Some name, Some pw, Some mail =>
          if String.eqb name "" || String.eqb pw "" || String.eqb mail "" then
            (st, Response 400 (error_body "Username, password, and email are required"))
          else
            let sanitizedUsername := sanitizeInput name in
            let sanitizedEmail := sanitizeInput mail in
            if (String.length sanitizedUsername <? 3)%nat || (30 <? String.length sanitizedUsername)%nat then
              (st, Response 400 (error_body "Username must be between 3 and 30 characters"))
            else if negb (emailRegex_test sanitizedEmail) then
              (st, Response 400 (error_body "Invalid email format"))
            else
              match findUserByUsername (users (db st)) sanitizedUsername with
              | Some _ => (st, Response 400 (error_body "Username already exists"))
              | None =>
                  match validatePassword pw with
                  | Some passwordError => (st, Response 400 (error_body passwordError))
                  | None =>
                      let newUser := mkUser uuid sanitizedUsername (Some sanitizedEmail)
                                       (bcrypt_hash E pw 12) 1000 "user" (Some createdAt) in
                      (with_db st (mkStore (users (db st) ++ [newUser]) (transactions (db st))),
                       Response 201 (JObj [("message", JStr "User created successfully");
                                           ("user", JObj [("id", JStr uuid);
                                                          ("username", JStr sanitizedUsername);
                                                          ("email", JStr sanitizedEmail)])]))
                  end
              end
      | _, _, _ => (st, Response 400 (error_body "Username, password, and email are required"))
      end
  end.

(** The middleware [authenticateToken]. *)
Definition authenticateToken (st : state) (authHeader : option string) : response + Claims :=
  match bearer_token authHeader with
  | None => inl (Response 401 (error_body "Access token required"))
  | Some token =>
      if bool_decide (token ∈ invalidatedTokens st) then
        inl (Response 403 (error_body "Token has been invalidated"))
      else
        match jwt_verify E token JWT_SECRET with
        | inr decoded =>
            match findUserById (users (db st)) (c_userId decoded) with
            | None => inl (Response 403 (error_body "User not found"))
            | Some _ => inr decoded
            end
        | inl _ => inl (Response 403 (error_body "Invalid or expired token"))
        end
  end.

(** The middleware [requireAdmin]: [None] when it calls [next()]. *)
Definition requireAdmin (user : Claims) : option response :=
  if negb (String.eqb (c_role user) "admin") then
    Some (Response 403 (error_body "Admin access required"))
  else None.

(** The middleware [authorizeResourceAccess]. *)
Definition authorizeResourceAccess (user : Claims) (requestedUserId : string) : option response :=
  if negb (String.eqb requestedUserId (c_userId user)) && negb (String.eqb (c_role user) "admin") then
    Some (Response 403 (error_body "Access denied"))
  else None.

(** [POST /api/logout] *)
Definition logout (st : state) (authHeader : option string) : state * response :=
  match authenticateToken st authHeader with
  | inl r => (st, r)
  | inr _ =>
      let st' :=
        match bearer_token authHeader with
        | Some token => mkState (db st) ({[ token ]} ∪ invalidatedTokens st) (rateLimitStore st)
        | None => st
        end in
      (st', Response 200 (JObj [("message", JStr "Logged out successfully")]))
  end.

Definition profile_json (user : User) : json :=
  JObj ([("id", JStr (u_id user)); ("username", JStr (u_username user))]
        ++ opt_field "email" (u_email user)
        ++ [("balance", JNum (u_balance user)); ("role", JStr (u_role user))]
        ++ opt_field "createdAt" (u_createdAt user)).

(** [GET /api/user/:userId] *)
Definition get_user (st : state) (authHeader : option string) (userId : string) : response :=
  match authenticateToken st authHeader with
  | inl r => r
  | inr user =>
      match authorizeResourceAccess user userId with
      | Some r => r
      | None =>
          match findUserById (users (db st)) userId with
          | None => Response 404 (error_body "User not found")
          | Some (_, found) => Response 200 (profile_json found)
          end
      end
  end.

(** [GET /api/balance/:userId] *)
Definition get_balance (st : state) (authHeader : option string) (userId : string) : response :=
  match authenticateToken st authHeader with
  | inl r => r
  | inr user =>
      match authorizeResourceAccess user userId with
      | Some r => r
      | None =>
          match findUserById (users (db st)) userId with
          | None => Response 404 (error_body "User not found")
          | Some (_, found) => Response 200 (JObj [("balance", JNum (u_balance found))])
          end
      end
  end.

Definition debit (roundedAmount : float) (u : User) : User :=
  set_balance (round2 (u_balance u - roundedAmount)) u.

Definition credit (roundedAmount : float) (u : User) : User :=
  set_balance (round2 (u_balance u + roundedAmount)) u.

(** [POST /api/send]; [amount] is a JSON number or absent, so that
    [parseFloat(amount)] is the number itself. *)
Definition send (st : state) (authHeader : option string)
    (recipientId : option string) (amount : option float)
    (uuid now : string) : state * response :=
  match authenticateToken st authHeader with
  | inl r => (st, r)
  | inr decoded =>
      let senderId := c_userId decoded in
      match recipientId, amount with
      | Some rid, Some amt =>
          if String.eqb rid "" || falsy_num amt then
            (st, Response 400 (error_body "Recipient and amount are required"))
          else
            let numericAmount := amt in
            if PrimFloat.is_nan numericAmount || (numericAmount <=? 0)%float
               || (1000000 <? numericAmount)%float then
              (st, Response 400 (error_body "Invalid amount"))
            else
              let roundedAmount := round2 numericAmount in
              match findUserById (users (db st)) senderId, findUserById (users (db st)) rid with
              | Some (i, sender), Some (j, recipient) =>
                  if String.eqb (u_id sender) (u_id recipient) then
                    (st, Response 400 (error_body "Cannot send money to yourself"))
                  else if (u_balance sender <? roundedAmount)%float then
                    (st, Response 400 (error_body "Insufficient funds"))
                  else
                    let users' := alter (credit roundedAmount) j
                                    (alter (debit roundedAmount) i (users (db st))) in
                    let transaction := mkTransaction uuid senderId rid roundedAmount now "transfer" in
                    let newBalance :=
                      match users' !! i with
                      | Some sender' => u_balance sender'
                      | None => u_balance sender
                      end in
                    (with_db st (mkStore users' (transactions (db st) ++ [transaction])),
                     Response 200 (JObj [("message", JStr "Transfer successful");
                                         ("transaction",
                                          JObj [("id", JStr uuid); ("amount", JNum roundedAmount);
                                                ("timestamp", JStr now);
                                                ("recipientUsername", JStr (u_username recipient))]);
                                         ("newBalance", JNum newBalance)]))
              | _, _ => (st, Response 404 (error_body "User not found"))
              end
      | _, _ => (st, Response 400 (error_body "Recipient and amount are required"))
      end
  end.

(** [GET /api/transactions/:userId] *)
Definition get_transactions (st : state) (authHeader : option string) (userId : string) : response :=
  match authenticateToken st authHeader with
  | inl r => r
  | inr user =>
      match authorizeResourceAccess user userId with
      | Some r => r
      | None =>
          Response 200 (JObj [("transactions",
                               JArr (map transaction_json
                                       (filter (fun t => involves userId t) (transactions (db st)))))])
      end
  end.

(** [GET /api/admin/users] *)
Definition admin_users (st : state) (authHeader : option string) : response :=
  match authenticateToken st authHeader with
  | inl r => r
  | inr user =>
      match requireAdmin user with
      | Some r => r
      | None => Response 200 (JObj [("users", JArr (map profile_json (users (db st))))])
      end
  end.

(** [POST /api/admin/modify-balance]; [newBalance] is a JSON number or
    absent ([undefined]). *)
Definition admin_modify_balance (st : state) (authHeader : option string)
    (userId : option string) (newBalance : option float) : state * response :=
  match authenticateToken st authHeader with
  | inl r => (st, r)
  | inr user =>
      match requireAdmin user with
      | Some r => (st, r)
      | None =>
          match userId, newBalance with
          | Some uid, Some numericBalance =>
              if String.eqb uid "" then
                (st, Response 400 (error_body "User ID and new balance are required"))
              else if PrimFloat.is_nan numericBalance || (numericBalance <? 0)%float
                      || (10000000 <? numericBalance)%float then
                (st, Response 400 (error_body "Invalid balance amount"))
              else
                match findUserById (users (db st)) uid with
                | None => (st, Response 404 (error_body "User not found"))
                | Some (i, found) =>
                    let b := round2 numericBalance in
                    (with_db st (mkStore (alter (set_balance b) i (users (db st))) (transactions (db st))),
                     Response 200 (JObj [("message", JStr "Balance updated successfully");
                                         ("user", JObj [("id", JStr (u_id found));
                                                        ("username", JStr (u_username found));
                                                        ("balance", JNum b)])]))
                end
          | _, _ => (st, Response 400 (error_body "User ID and new balance are required"))
          end
      end
  end.

(** The callback of [app.listen]: the default admin account. *)
Definition listen (st : state) (uuid createdAt : string) : state :=
  with_db st (mkStore (users (db st) ++ [mkUser uuid "admin" (Some "admin@wallet.com")
                                           (bcrypt_hash E "SecureAdmin123!" 12) 10000 "admin"
                                           (Some createdAt)])
                      (transactions (db st))).

End Handlers.

(** Requests from one address at the given times, through [rateLimit]:
    what the middleware answers to each. *)
Fixpoint knocks (st : state) (clientIP : string) (times : list Z) : state * list (option response) :=
  match times with
  | [] => (st, [])
  | t :: rest =>
      let (st1, r) := rateLimit st clientIP t in
      let (st2, rs) := knocks st1 clientIP rest in
      (st2, r :: rs)
  end.

Section Sessions.

Variable E : Externals.
Variable JWT_SECRET : string.

(** [jwt.sign(payload, secret, { expiresIn })] for a payload that states its
    own [iat]: the claims, [iat], the secret and [expiresIn]. *)
Variable jwt_sign_expiring : Claims -> Z -> string -> string -> string.

(** [POST /api/login]; [now] is the clock read by [rateLimit] and
    [signedAt] the clock read when the token is signed. *)
Definition login (st : state) (clientIP : string) (now : Z)
    (username password : option string) (signedAt : Z) : state * response :=
  match rateLimit st clientIP now with
  | (st, Some r) => (st, r)
  | (st, None) =>
      match username, password with
      | Some name, Some pw =>
          if String.eqb name "" || String.eqb pw "" then
            (st, Response 400 (error_body "Username and password are required"))
          else
            match findUserByUsername (users (db st)) (sanitizeInput name) with
            | None => (st, Response 401 (error_body "Invalid credentials"))
            | Some (_, user) =>
                if bcrypt_compare E pw (u_password user) then
                  let token :=
                    jwt_sign_expiring (mkClaims (u_id user) (u_username user) (u_role user))
                      (signedAt / 1000)%Z JWT_SECRET JWT_EXPIRATION in
                  (st, Response 200 (JObj [("message", JStr "Login successful");
                                           ("token", JStr token);
                                           ("user", JObj [("id", JStr (u_id user));
                                                          ("username", JStr (u_username user));
                                                          ("role", JStr (u_role user))])]))
                else (st, Response 401 (error_body "Invalid credentials"))
            end
      | _, _ => (st, Response 400 (error_body "Username and password are required"))
      end
  end.

(** [GET /api/users]: the other users, for the recipient list. *)
Definition get_users (st : state) (authHeader : option string) : response :=
  match authenticateToken E JWT_SECRET st authHeader with
  | inl r => r
  | inr user =>
      Response 200
        (JObj [("users",
                JArr (map (fun u => JObj [("id", JStr (u_id u)); ("username", JStr (u_username u))])
                        (filter (fun u => u_id u <> c_userId user) (users (db st)))))])
  end.

(** The requests that can change the state, and requests handled one after
    the other, each to completion. *)
Inductive request : Type :=
| Register (clientIP : string) (now : Z) (username password email : option string)
    (uuid createdAt : string)
| Login (clientIP : string) (now : Z) (username password : option string) (signedAt : Z)
| Logout (authHeader : option string)
| Send (authHeader recipientId : option string) (amount : option float) (uuid now : string)
| ModifyBalance (authHeader userId : option string) (newBalance : option float).

Definition handle (st : state) (req : request) : state * response :=
  match req with
  | Register clientIP now username password email uuid createdAt =>
      register E st clientIP now username password email uuid createdAt
  | Login clientIP now username password signedAt =>
      login st clientIP now username password signedAt
  | Logout authHeader => logout E JWT_SECRET st authHeader
  | Send authHeader recipientId amount uuid now =>
      send E JWT_SECRET st authHeader recipientId amount uuid now
  | ModifyBalance authHeader userId newBalance =>
      admin_modify_balance E JWT_SECRET st authHeader userId newBalance
  end.

Fixpoint serve (st : state) (reqs : list request) : state * list response :=
  match reqs with
  | [] => (st, [])
  | req :: rest =>
      let (st1, r) := handle st req in
      let (st2, rs) := serve st1 rest in
      (st2, r :: rs)
  end.

End Sessions.

(** The request goes through [rateLimit], from the address [clientIP] and
    at a time not after [r]. *)
Definition limited_from (clientIP : string) (r : Z) (req : request) : Prop :=
  match req with
  | Register ip now _ _ _ _ _ => ip = clientIP /\ (now <= r)%Z
  | Login ip now _ _ _ => ip = clientIP /\ (now <= r)%Z
  | _ => False
  end.

End Secure.

(** * Test doubles and a concrete run

    A double of the two libraries: a token is the signing key and the three
    claims joined by dots; [verify] throws jsonwebtoken's [jwt malformed]
    for a string of another shape and its [invalid signature] for another
    key.  The stores are those the vulnerable server reaches when it starts
    and three users register. *)

Module Scenario.

Definition sign (c : Claims) (key : string) : string :=
  key +:+ "." +:+ c_userId c +:+ "." +:+ c_username c +:+ "." +:+ c_role c.

Definition verify (token key : string) : string + Claims :=
  match split "."%char token with
  | [k; uid; name; r] =>
      if String.eqb k key then inr (mkClaims uid name r) else inl "invalid signature"
  | _ => inl "jwt malformed"
  end.

Definition double : Externals :=
  mkExternals (fun pw _ => "$2a$" +:+ pw) (fun pw h => String.eqb ("$2a$" +:+ pw) h) sign verify.

Definition empty : store := mkStore [] [].

Definition started : store := Insecure.listen double empty "id-admin".

Definition with_alice : store :=
  fst (Insecure.register double started (Some "alice") (Some "123") (Some "alice@wallet.com") "id-alice").

Definition with_bob : store :=
  fst (Insecure.register double with_alice (Some "bob") (Some "456") (Some "bob@wallet.com") "id-bob").

(** The [Authorization] header a client builds from a login response. *)
Definition header_of (r : response) : option string :=
  match field "token" (body r) with
  | Some (JStr t) => Some ("Bearer " +:+ t)
  | _ => None
  end.

Definition alice_header : option string := header_of (Insecure.login double with_bob "alice" "123").
Definition admin_header : option string := header_of (Insecure.login double with_bob "admin" "admin123").

Definition balance_of (s : store) (id : string) : option float :=
  match findUserById (users s) id with
  | Some (_, u) => Some (u_balance u)
  | None => None
  end.



(** The remediated server started with a secret of its own, after alice
    and bob have registered from two addresses. *)
Definition secret : string := "9f2c47d1".

Definition secure_started : Secure.state :=
  Secure.listen double (Secure.mkState empty ∅ ∅) "id-admin" "2024-01-01T00:00:00.000Z".

Definition secure_with_alice : Secure.state :=
  fst (Secure.register double secure_started "10.0.0.1" 1000 (Some "alice") (Some "Password1")
         (Some "alice@wallet.com") "id-alice" "2024-01-01T00:00:01.000Z").

Definition secure_with_bob : Secure.state :=
  fst (Secure.register double secure_with_alice "10.0.0.2" 2000 (Some "bob") (Some "Passw0rd")
         (Some "bob@wallet.com") "id-bob" "2024-01-01T00:00:02.000Z").

(** Tokens the remediated server has issued to alice, to bob and to the admin. *)
Definition alice_token : option string :=
  Some ("Bearer " +:+ sign (mkClaims "id-alice" "alice" "user") secret).
Definition bob_token : option string :=
  Some ("Bearer " +:+ sign (mkClaims "id-bob" "bob" "user") secret).
Definition admin_token : option string :=
  Some ("Bearer " +:+ sign (mkClaims "id-admin" "admin" "admin") secret).

(** The double of [jwt.sign] with an expiry: the same token, the times left
    out. *)
Definition sign_expiring (c : Claims) (iat : Z) (key expiresIn : string) : string := sign c key.

End Scenario.

(** * Totals

    The value of a binary64 number as a rational ([0] for an infinity or
    [NaN], which have none), and the sum of the balances in a store, both
    exactly and as JavaScript would add them up. *)

Definition exact (x : float) : Q :=
  match Prim2SF x with
  | S754_finite sign m e =>
      (inject_Z (if sign then Z.neg m else Z.pos m) * Qpower 2 e)%Q
  | _ => 0%Q
  end.



(** Sign and finiteness, read on the expansion of a binary64 number. *)
Definition sf_nonneg (x : spec_float) : bool :=
  match x with
  | S754_zero _ | S754_infinity false | S754_finite false _ _ => true
  | _ => false
  end.

Definition sf_pos (x : spec_float) : bool :=
  match x with
  | S754_infinity false | S754_finite false _ _ => true
  | _ => false
  end.

Definition sf_finite (x : spec_float) : bool :=
  match x with
  | S754_zero _ | S754_finite _ _ _ => true
  | _ => false
  end.

Definition finite (x : float) : bool := sf_finite (Prim2SF x).






(** Every balance in the store is a number that is not below zero. *)
Definition nonneg_balances (s : store) : Prop :=
  forall u, u ∈ users s -> (0 <=? u_balance u)%float = true.

(** * Binary64 arithmetic: signs

    The sum of a number that is not negative and a positive one is not
    negative, and neither is their difference when the first is not the
    smaller; both are read off the specification of the operations. *)

Module Binary64.

Local Open Scope Z_scope.

Lemma shr_1_nonneg (mrs : shr_record) : 0 <= shr_m mrs -> 0 <= shr_m (shr_1 mrs).
Proof.
  destruct mrs as [m r s]. simpl. intros H.
  destruct m as [|[p|p|]|p]; simpl; lia.
Qed.

Lemma iter_shr_1_nonneg (p : positive) (mrs : shr_record) :
  0 <= shr_m mrs -> 0 <= shr_m (SpecFloat.iter_pos shr_1 p mrs).
Proof.
  revert mrs. induction p as [p IH|p IH|]; intros mrs H; simpl.
  - apply IH, IH, shr_1_nonneg, H.
  - apply IH, IH, H.
  - apply shr_1_nonneg, H.
Qed.

Lemma shr_fexp_nonneg (m e : Z) (l : location) :
  0 <= m -> 0 <= shr_m (fst (shr_fexp prec emax m e l)).
Proof.
  intros H. unfold shr_fexp, shr.
  assert (H0 : 0 <= shr_m (shr_record_of_loc m l)) by (destruct l as [|[]]; exact H).
  destruct (fexp prec emax (Zdigits2 m + e) - e); simpl; try exact H0.
  apply iter_shr_1_nonneg, H0.
Qed.

Lemma round_nearest_even_nonneg (m : Z) (l : location) :
  0 <= m -> 0 <= round_nearest_even m l.
Proof.
  intros H. destruct l as [|[]]; simpl; try lia. destruct (Z.even m); lia.
Qed.

(** Rounding a mantissa that is not negative gives a zero, a finite number
    or an infinity of the sign asked for. *)
Lemma binary_round_aux_nonneg (m e : Z) (l : location) :
  0 <= m -> sf_nonneg (binary_round_aux prec emax false m e l) = true.
Proof.
  intros H. unfold binary_round_aux.
  pose proof (shr_fexp_nonneg m e l H) as H1.
  destruct (shr_fexp prec emax m e l) as [mrs' e']. simpl in H1.
  pose proof (shr_fexp_nonneg _ e' loc_Exact
                (round_nearest_even_nonneg _ (loc_of_shr_record mrs') H1)) as H2.
  destruct (shr_fexp prec emax (round_nearest_even (shr_m mrs') (loc_of_shr_record mrs')) e' loc_Exact)
    as [mrs'' e'']. simpl in H2.
  destruct (shr_m mrs'') as [|p|p]; try reflexivity; [|lia].
  destruct (e'' <=? emax - prec); reflexivity.
Qed.

Lemma binary_round_nonneg (p : positive) (e : Z) :
  sf_nonneg (binary_round prec emax false p e) = true.
Proof.
  unfold binary_round.
  destruct (shl_align p e (fexp prec emax (Z.pos (digits2_pos p) + e))) as [mz ez].
  apply binary_round_aux_nonneg. lia.
Qed.

Lemma binary_normalize_nonneg (m e : Z) :
  0 <= m -> sf_nonneg (binary_normalize prec emax m e false) = true.
Proof.
  intros H. destruct m as [|p|p]; [reflexivity| |lia].
  apply binary_round_nonneg.
Qed.

Lemma SFadd_nonneg (x y : spec_float) :
  sf_nonneg x = true -> sf_nonneg y = true -> sf_nonneg (SFadd prec emax x y) = true.
Proof.
  destruct x as [sx|[]| |[] mx ex]; destruct y as [sy|[]| |[] my ey]; try discriminate;
    intros _ _; try reflexivity.
  - destruct sx, sy; reflexivity.
  - simpl SFadd. apply binary_round_nonneg.
Qed.

Lemma SFmul_nonneg (x : spec_float) (my : positive) (ey : Z) :
  sf_nonneg x = true -> sf_nonneg (SFmul prec emax x (S754_finite false my ey)) = true.
Proof.
  destruct x as [sx|[]| |[] mx ex]; try discriminate; intros _; try reflexivity.
  simpl SFmul. apply binary_round_aux_nonneg. lia.
Qed.

Lemma SFdiv_nonneg (x : spec_float) (my : positive) (ey : Z) :
  sf_nonneg x = true -> sf_nonneg (SFdiv prec emax x (S754_finite false my ey)) = true.
Proof.
  destruct x as [sx|[]| |[] mx ex]; try discriminate; intros _; try reflexivity.
  unfold SFdiv, SFdiv_core_binary. cbv zeta.
  set (e' := Z.min _ _).
  set (m' := match ex - ey - e' with Z0 => _ | Z.pos _ => _ | Z.neg _ => _ end).
  assert (Hm : 0 <= m').
  { subst m'. destruct (ex - ey - e'); try lia. apply Z.shiftl_nonneg. lia. }
  pose proof (Z.div_pos m' (Z.pos my) Hm ltac:(lia)) as Hq.
  unfold Z.div in Hq. destruct (Z.div_eucl m' (Z.pos my)) as [q r].
  apply binary_round_aux_nonneg. exact Hq.
Qed.

Lemma digits2_pos_bounds (m : positive) :
  2 ^ (Z.pos (digits2_pos m) - 1) <= Z.pos m < 2 ^ Z.pos (digits2_pos m).
Proof.
  induction m as [m IH|m IH|]; simpl digits2_pos.
  - rewrite Pos2Z.inj_succ.
    replace (Z.succ (Z.pos (digits2_pos m)) - 1) with (Z.succ (Z.pos (digits2_pos m) - 1)) by lia.
    rewrite !Z.pow_succ_r by lia. lia.
  - rewrite Pos2Z.inj_succ.
    replace (Z.succ (Z.pos (digits2_pos m)) - 1) with (Z.succ (Z.pos (digits2_pos m) - 1)) by lia.
    rewrite !Z.pow_succ_r by lia. lia.
  - simpl. lia.
Qed.

Lemma iter_xO_doubles (d m : positive) : 2 * Z.pos m <= Z.pos (Pos.iter xO m d).
Proof.
  induction d as [|d IH] using Pos.peano_ind.
  - simpl. lia.
  - rewrite Pos.iter_succ. rewrite Pos2Z.inj_xO. lia.
Qed.

Lemma shl_align_same (m : positive) (e : Z) : fst (shl_align m e e) = m.
Proof. unfold shl_align. rewrite Z.sub_diag. reflexivity. Qed.

(** Of two valid positive numbers, the one that is not the smaller has the
    larger mantissa once both are brought to the smaller exponent: with a
    larger exponent it is a normal number, of 53 digits, and the other has
    53 digits at most. *)
Lemma aligned_mantissas (m1 m2 : positive) (e1 e2 : Z) :
  bounded prec emax m1 e1 = true -> bounded prec emax m2 e2 = true ->
  SFltb (S754_finite false m1 e1) (S754_finite false m2 e2) = false ->
  Z.pos (fst (shl_align m2 e2 (Z.min e1 e2))) <= Z.pos (fst (shl_align m1 e1 (Z.min e1 e2))).
Proof.
  unfold bounded, canonical_mantissa, fexp, SFltb. simpl SFcompare.
  intros H1 H2 Hlt.
  apply andb_true_iff in H1 as [H1 _]. apply andb_true_iff in H2 as [H2 _].
  apply Z.eqb_eq in H1, H2.
  pose proof (digits2_pos_bounds m1) as D1. pose proof (digits2_pos_bounds m2) as D2.
  change (SpecFloat.emin prec emax) with (-1074) in *. change prec with 53 in *.
  destruct (Z.compare_spec e1 e2) as [Heq|Hl|Hg]; [|discriminate|].
  - subst e2. rewrite Z.min_id, !shl_align_same.
    destruct (Pos.compare_cont Eq m1 m2) eqn:Hc; try discriminate.
    + apply Pos.compare_eq in Hc. subst. lia.
    + apply Pos.compare_gt_iff in Hc. lia.
  - rewrite Z.min_r by lia. rewrite shl_align_same.
    unfold shl_align. destruct (e2 - e1) as [|d|d] eqn:Hd; try lia. simpl fst.
    pose proof (iter_xO_doubles d m1) as Hx.
    assert (Hd1 : Z.pos (digits2_pos m1) = 53) by lia.
    assert (Hd2 : Z.pos (digits2_pos m2) <= 53) by lia.
    rewrite Hd1 in D1. change (2 ^ (53 - 1)) with 4503599627370496 in D1.
    assert (Z.pos m2 < 2 ^ 53).
    { eapply Z.lt_le_trans; [apply D2|]. apply Z.pow_le_mono_r; lia. }
    change (2 ^ 53) with 9007199254740992 in *. lia.
Qed.

Lemma SFsub_nonneg (x y : spec_float) :
  valid_binary x = true -> valid_binary y = true ->
  sf_nonneg x = true -> sf_nonneg y = true -> sf_finite y = true ->
  SFltb x y = false ->
  sf_nonneg (SFsub prec emax x y) = true.
Proof.
  destruct x as [sx|[]| |[] mx ex]; destruct y as [sy|[]| |[] my ey]; try discriminate;
    intros Vx Vy _ _ _ Hlt; try reflexivity; try discriminate.
  - destruct sx, sy; reflexivity.
  - simpl in Vx, Vy.
    pose proof (aligned_mantissas mx my ex ey Vx Vy Hlt) as H.
    unfold SFsub. cbv zeta. unfold cond_Zopp.
    apply binary_normalize_nonneg. lia.
Qed.

Lemma leb_zero_nonneg (x : float) : (0 <=? x)%float = sf_nonneg (Prim2SF x).
Proof.
  rewrite leb_spec. change (Prim2SF 0) with (S754_zero false).
  destruct (Prim2SF x) as [s|[]| |[] m e]; reflexivity.
Qed.

Lemma positive_number (a : float) :
  (a <=? 0)%float = false -> PrimFloat.is_nan a = false -> sf_pos (Prim2SF a) = true.
Proof.
  unfold PrimFloat.is_nan. rewrite leb_spec, FloatAxioms.eqb_spec.
  change (Prim2SF 0) with (S754_zero false).
  destruct (Prim2SF a) as [s|[]| |[] m e]; simpl; try discriminate; try reflexivity.
  all: unfold SFeqb, SFleb; simpl; try discriminate.
Qed.

Lemma sf_pos_nonneg (x : spec_float) : sf_pos x = true -> sf_nonneg x = true.
Proof. destruct x as [s|[]| |[] m e]; try discriminate; reflexivity. Qed.

(** A number for which [a <= 0] is false is above zero. *)
Lemma positive_is_nonneg (a : float) :
  (a <=? 0)%float = false -> PrimFloat.is_nan a = false -> (0 <=? a)%float = true.
Proof.
  intros Ha Hn. rewrite leb_zero_nonneg. apply sf_pos_nonneg, positive_number; assumption.
Qed.

(** A number for which [b < 0] is false is at or above zero. *)
Lemma not_negative_is_nonneg (b : float) :
  PrimFloat.is_nan b = false -> (b <? 0)%float = false -> (0 <=? b)%float = true.
Proof.
  unfold PrimFloat.is_nan. rewrite leb_zero_nonneg, ltb_spec, FloatAxioms.eqb_spec.
  change (Prim2SF 0) with (S754_zero false).
  destruct (Prim2SF b) as [s|[]| |[] m e]; simpl; try discriminate; try reflexivity.
Qed.

(** [r + a] is not negative when neither [r] nor [a] is. *)
Lemma add_keeps_nonneg (r a : float) :
  (0 <=? r)%float = true -> (0 <=? a)%float = true -> (0 <=? r + a)%float = true.
Proof.
  rewrite !leb_zero_nonneg, add_spec. apply SFadd_nonneg.
Qed.

(** [b - a] is not negative when neither [b] nor [a] is, [a] is finite and
    [b < a] is false. *)
Lemma sub_keeps_nonneg (b a : float) :
  (0 <=? b)%float = true -> (0 <=? a)%float = true -> finite a = true ->
  (b <? a)%float = false ->
  (0 <=? b - a)%float = true.
Proof.
  rewrite !leb_zero_nonneg, sub_spec, ltb_spec. unfold finite. intros Hb Ha Hf Hlt.
  apply SFsub_nonneg; try assumption; apply Prim2SF_valid.
Qed.

Lemma float_of_Z_nonneg (n : Z) : 0 <= n -> (0 <=? Secure.float_of_Z n)%float = true.
Proof.
  intros Hn. unfold Secure.float_of_Z.
  destruct (n <? 0) eqn:Hneg; [apply Z.ltb_lt in Hneg; lia|].
  rewrite leb_zero_nonneg, of_uint63_spec.
  apply binary_normalize_nonneg. apply Uint63.to_Z_bounded.
Qed.

(** [Math.round] and the rounding to cents keep a number at or above zero. *)
Lemma Math_round_nonneg (x : float) :
  (0 <=? x)%float = true -> (0 <=? Secure.Math_round x)%float = true.
Proof.
  intros Hx. unfold Secure.Math_round.
  pose proof Hx as Hsf. rewrite leb_zero_nonneg in Hsf.
  destruct (Prim2SF x) as [s|s| |sign m e]; try exact Hx.
  destruct sign; [discriminate|].
  destruct (0 <=? e) eqn:He; [exact Hx|].
  set (n := (2 * Z.pos m + 2 ^ (- e)) / 2 ^ (1 - e)).
  destruct (n =? 0); [reflexivity|].
  apply float_of_Z_nonneg. subst n.
  apply Z.leb_gt in He.
  apply Z.div_pos; [|apply Z.pow_pos_nonneg; lia].
  pose proof (Z.pow_nonneg 2 (- e)). lia.
Qed.

Lemma round2_nonneg (x : float) :
  (0 <=? x)%float = true -> (0 <=? Secure.round2 x)%float = true.
Proof.
  intros Hx. unfold Secure.round2.
  assert (H100 : Prim2SF 100 = S754_finite false 7036874417766400 (-46)) by reflexivity.
  assert (Hmul : (0 <=? x * 100)%float = true).
  { rewrite leb_zero_nonneg, mul_spec, H100. apply SFmul_nonneg.
    rewrite <- leb_zero_nonneg. exact Hx. }
  apply Math_round_nonneg in Hmul.
  rewrite leb_zero_nonneg, div_spec, H100. apply SFdiv_nonneg.
  rewrite <- leb_zero_nonneg. exact Hmul.
Qed.

End Binary64.

(** * Facts about the helpers *)

Lemma involves_false (userId : string) (t : Transaction) :
  t_senderId t <> userId -> t_recipientId t <> userId -> involves userId t = false.
Proof.
  intros Hs Hr. unfold involves.
  apply orb_false_iff. split; apply String.eqb_neq; assumption.
Qed.

Lemma filter_involves_nil (userId : string) (txs : list Transaction) :
  (forall t, t ∈ txs -> t_senderId t <> userId /\ t_recipientId t <> userId) ->
  filter (fun t => involves userId t) txs = [].
Proof.
  induction txs as [|t txs IH]; intros H; [reflexivity|].
  destruct (H t) as [Hs Hr]; [left|].
  rewrite filter_cons_False.
  - apply IH. intros t' Ht'. apply H. right. exact Ht'.
  - rewrite (involves_false _ _ Hs Hr). intros [].
Qed.

Lemma findUserById_Some (us : list User) (id : string) (i : nat) (u : User) :
  findUserById us id = Some (i, u) -> us !! i = Some u /\ u_id u = id.
Proof.
  unfold findUserById. intros H. apply list_find_Some in H.
  destruct H as (Hl & Hid & _). split; assumption.
Qed.


Lemma set_balance_identity (b : float) (v : User) :
  u_id (set_balance b v) = u_id v /\ u_username (set_balance b v) = u_username v.
Proof. split; reflexivity. Qed.

(** An in-place update that keeps [id] and [username] keeps them at every
    position of the array. *)
Lemma alter_keeps_identity (f : User -> User) (us : list User) (i k : nat) (u : User) :
  (forall v, u_id (f v) = u_id v /\ u_username (f v) = u_username v) ->
  us !! k = Some u ->
  exists u', alter f i us !! k = Some u' /\ u_id u' = u_id u /\ u_username u' = u_username u.
Proof.
  intros Hf Hk. destruct (decide (i = k)) as [->|Hne].
  - exists (f u). rewrite list_lookup_alter_eq, Hk. split; [reflexivity|apply Hf].
  - exists u. rewrite list_lookup_alter_ne by exact Hne. auto.
Qed.

(** A property of every user survives an in-place update that keeps it. *)
Lemma alter_keeps_all (P : User -> Prop) (f : User -> User) (us : list User) (i : nat) :
  (forall v, v ∈ us -> P v) ->
  (forall v, us !! i = Some v -> P v -> P (f v)) ->
  forall v, v ∈ alter f i us -> P v.
Proof.
  intros Hall Hf v Hv. apply list_elem_of_lookup in Hv as [k Hk].
  destruct (decide (i = k)) as [->|Hne].
  - rewrite list_lookup_alter_eq in Hk.
    destruct (us !! k) as [w|] eqn:Hw; [|discriminate].
    injection Hk as <-. apply (Hf w eq_refl). apply Hall. eapply list_elem_of_lookup_2. exact Hw.
  - rewrite list_lookup_alter_ne in Hk by exact Hne.
    apply Hall. eapply list_elem_of_lookup_2. exact Hk.
Qed.

(** * [server.js]: what the handlers do *)

Module InsecureFacts.

Import Insecure.

Section Facts.

Variable E : Externals.

(** The middleware refuses with status 401 or 403. *)
Lemma insecure_refusal_status (authHeader : option string) (r : response) :
  authenticateToken E authHeader = inl r -> status r = 401%nat \/ status r = 403%nat.
Proof.
  unfold authenticateToken.
  destruct (bearer_token authHeader) as [token|].
  - destruct (jwt_verify E token JWT_SECRET); intros H; inversion H; subst; right; reflexivity.
  - intros H; inversion H; subst; left; reflexivity.
Qed.

(** The profile and the balance of any existing user are served to any
    authenticated caller, whoever the caller is: the handlers never read
    [req.user]. *)
Theorem any_existing_user_is_served (s : store) (authHeader : option string) (caller : Claims)
    (userId : string) (i : nat) (u : User) :
  authenticateToken E authHeader = inr caller ->
  findUserById (users s) userId = Some (i, u) ->
  get_user E s authHeader userId = Response 200 (profile_json u)
  /\ get_balance E s authHeader userId = Response 200 (JObj [("balance", JNum (u_balance u))]).
Proof.
  unfold get_user, get_balance. intros -> ->. split; reflexivity.
Qed.

(** A transfer whose amount is zero or negative is answered with status 400
    and leaves the store as it was. *)
Theorem non_positive_amount_is_refused (s : store) (authHeader recipientId : option string)
    (caller : Claims) (amt : float) (uuid now : string) :
  authenticateToken E authHeader = inr caller ->
  (amt <=? 0)%float = true ->
  send E s authHeader recipientId (Some amt) uuid now
  = (s, Response 400 (error_body "Valid recipient and amount required")).
Proof.
  intros Hauth Hle. unfold send. rewrite Hauth.
  destruct recipientId as [rid|]; [|reflexivity].
  rewrite Hle, orb_true_r. reflexivity.
Qed.

(** Registration, transfer and balance modification keep the [id] and the
    [username] of every user already in the store, at the same position. *)
Theorem handle_keeps_identities (s : store) (req : request) (k : nat) (u : User) :
  users s !! k = Some u ->
  exists u', users (fst (handle E s req)) !! k = Some u'
             /\ u_id u' = u_id u /\ u_username u' = u_username u.
Proof.
  intros Hk.
  assert (Hsame : exists u', users s !! k = Some u' /\ u_id u' = u_id u /\ u_username u' = u_username u)
    by (exists u; auto).
  destruct req as [username password email uuid
                  |authHeader recipientId amount uuid now
                  |authHeader userId newBalance]; simpl.
  - unfold register.
    destruct username as [name|]; [|exact Hsame].
    destruct password as [pw|]; [|exact Hsame].
    destruct (String.eqb name "" || String.eqb pw ""); [exact Hsame|].
    destruct (findUserByUsername (users s) name); [exact Hsame|].
    simpl. exists u. rewrite lookup_app_l by (eapply lookup_lt_Some; exact Hk). auto.
  - unfold send.
    destruct (authenticateToken E authHeader) as [|caller]; [exact Hsame|].
    destruct recipientId as [rid|]; [|exact Hsame].
    destruct amount as [amt|]; [|exact Hsame].
    destruct (String.eqb rid "" || falsy_num amt || (amt <=? 0)%float); [exact Hsame|].
    destruct (findUserById (users s) (c_userId caller)) as [[i sender]|]; [|exact Hsame].
    destruct (findUserById (users s) rid) as [[j recipient]|]; [|exact Hsame].
    destruct (u_balance sender <? amt)%float; [exact Hsame|].
    simpl.
    destruct (alter_keeps_identity (debit amt) (users s) i k u) as (u1 & H1 & Hid1 & Hn1);
      [intros v; apply set_balance_identity|exact Hk|].
    destruct (alter_keeps_identity (credit amt) (alter (debit amt) i (users s)) j k u1)
      as (u2 & H2 & Hid2 & Hn2);
      [intros v; apply set_balance_identity|exact H1|].
    exists u2. split; [exact H2|]. split; congruence.
  - unfold admin_modify_balance.
    destruct (authenticateToken E authHeader); [exact Hsame|].
    destruct (findUserById (users s) userId) as [[i user]|]; [|exact Hsame].
    simpl. apply alter_keeps_identity; [intros v; apply set_balance_identity|exact Hk].
Qed.

(** Registration and a transfer of a finite amount keep every balance at
    or above zero: a new user starts with 1000, the sender's balance is not
    below the amount, and the recipient's only grows. *)
Theorem balances_stay_nonneg (s : store) :
  nonneg_balances s ->
  (forall username password email uuid,
      nonneg_balances (fst (register E s username password email uuid)))
  /\ (forall authHeader recipientId amount uuid now,
         (forall amt, amount = Some amt -> finite amt = true) ->
         nonneg_balances (fst (send E s authHeader recipientId amount uuid now))).
Proof.
  intros Hs. split.
  - intros username password email uuid. unfold register.
    destruct username as [name|]; [|exact Hs].
    destruct password as [pw|]; [|exact Hs].
    destruct (String.eqb name "" || String.eqb pw ""); [exact Hs|].
    destruct (findUserByUsername (users s) name); [exact Hs|].
    intros u Hu. simpl in Hu. apply elem_of_app in Hu as [Hu|Hu]; [apply Hs, Hu|].
    apply list_elem_of_singleton in Hu. subst u. reflexivity.
  - intros authHeader recipientId amount uuid now Hfin. unfold send.
    destruct (authenticateToken E authHeader) as [|caller]; [exact Hs|].
    destruct recipientId as [rid|]; [|exact Hs].
    destruct amount as [amt|]; [|exact Hs].
    destruct (String.eqb rid "" || falsy_num amt || (amt <=? 0)%float) eqn:Hguard; [exact Hs|].
    destruct (findUserById (users s) (c_userId caller)) as [[i sender]|] eqn:Hi; [|exact Hs].
    destruct (findUserById (users s) rid) as [[j recipient]|]; [|exact Hs].
    destruct (u_balance sender <? amt)%float eqn:Hlt; [exact Hs|].
    apply orb_false_iff in Hguard as [Hguard Hpos].
    apply orb_false_iff in Hguard as [_ Hnum].
    unfold falsy_num in Hnum. apply orb_false_iff in Hnum as [_ Hnan].
    apply findUserById_Some in Hi as [Hi _].
    intros u Hu. simpl in Hu. revert u Hu.
    apply alter_keeps_all.
    + apply alter_keeps_all; [exact Hs|].
      intros v Hv Hv0. unfold debit. simpl.
      rewrite Hi in Hv. injection Hv as <-.
      apply Binary64.sub_keeps_nonneg; auto using Binary64.positive_is_nonneg.
    + intros v _ Hv0. unfold credit. simpl.
      apply Binary64.add_keeps_nonneg; auto using Binary64.positive_is_nonneg.
Qed.

(** When [jwt.verify] throws, the message of the error it threw is sent to
    the caller under [details]. *)
Theorem token_error_carries_the_library_message (authHeader : option string)
    (token message : string) :
  bearer_token authHeader = Some token ->
  jwt_verify E token JWT_SECRET = inl message ->
  authenticateToken E authHeader
  = inl (Response 403 (JObj [("error", JStr "Invalid token"); ("details", JStr message)])).
Proof.
  intros Ht Hv. unfold authenticateToken. rewrite Ht, Hv. reflexivity.
Qed.

(** The transaction history does not depend on the [users] array. *)
Theorem get_transactions_ignores_users (us us' : list User) (txs : list Transaction)
    (authHeader : option string) (userId : string) :
  get_transactions E (mkStore us txs) authHeader userId
  = get_transactions E (mkStore us' txs) authHeader userId.
Proof. reflexivity. Qed.

End Facts.

End InsecureFacts.

(** C10. For every authenticated caller, the transaction history of a
    [userId] that names no user and appears in no transaction is answered
    with status 200 and an empty list; the handler never looks the user up. *)
Theorem transactions_of_unknown_user_are_empty (E : Externals) (s : store)
    (authHeader : option string) (caller : Claims) (userId : string) :
  Insecure.authenticateToken E authHeader = inr caller ->
  findUserById (users s) userId = None ->
  (forall t, t ∈ transactions s -> t_senderId t <> userId /\ t_recipientId t <> userId) ->
  Insecure.get_transactions E s authHeader userId
  = Response 200 (JObj [("transactions", JArr [])]).
Proof.
  intros Hauth _ Hno. unfold Insecure.get_transactions.
  rewrite Hauth, (filter_involves_nil _ _ Hno). reflexivity.
Qed.


(** * [server-secure.js]: what the handlers do *)

Module SecureFacts.

Import Secure.

Section Facts.

Variable E : Externals.
Variable K : string.

(** A caller the middleware lets through has a record in the store. *)
Lemma authenticated_user_exists (st : state) (authHeader : option string) (caller : Claims) :
  authenticateToken E K st authHeader = inr caller ->
  exists i u, findUserById (users (db st)) (c_userId caller) = Some (i, u).
Proof.
  unfold authenticateToken.
  destruct (bearer_token authHeader) as [token|]; [|discriminate].
  destruct (bool_decide (token ∈ invalidatedTokens st)); [discriminate|].
  destruct (jwt_verify E token K) as [|decoded]; [discriminate|].
  destruct (findUserById (users (db st)) (c_userId decoded)) as [[i u]|] eqn:Hf; [|discriminate].
  intros H. injection H as <-. exists i, u. exact Hf.
Qed.

(** The middleware refuses with status 401 or 403. *)
Lemma secure_refusal_status (st : state) (authHeader : option string) (r : response) :
  authenticateToken E K st authHeader = inl r -> status r = 401%nat \/ status r = 403%nat.
Proof.
  unfold authenticateToken.
  destruct (bearer_token authHeader) as [token|]; [|intros [= <-]; auto].
  destruct (bool_decide (token ∈ invalidatedTokens st)); [intros [= <-]; auto|].
  destruct (jwt_verify E token K) as [|decoded]; [intros [= <-]; auto|].
  destruct (findUserById (users (db st)) (c_userId decoded)) as [[i u]|]; [discriminate|].
  intros [= <-]; auto.
Qed.

Lemma authorize_refuses (caller : Claims) (userId : string) :
  userId <> c_userId caller -> c_role caller <> "admin" ->
  authorizeResourceAccess caller userId = Some (Response 403 (error_body "Access denied")).
Proof.
  intros Hid Hrole. unfold authorizeResourceAccess.
  apply String.eqb_neq in Hid. apply String.eqb_neq in Hrole.
  rewrite Hid, Hrole. reflexivity.
Qed.

Lemma authorize_allows (caller : Claims) (userId : string) :
  userId = c_userId caller \/ c_role caller = "admin" ->
  authorizeResourceAccess caller userId = None.
Proof.
  unfold authorizeResourceAccess. intros [->| ->].
  - rewrite String.eqb_refl. reflexivity.
  - rewrite andb_false_r. reflexivity.
Qed.

(** A caller who is neither the owner nor an admin is refused the profile,
    the balance and the transaction history with status 403. *)
Theorem foreign_read_is_forbidden (st : state) (authHeader : option string)
    (caller : Claims) (userId : string) :
  authenticateToken E K st authHeader = inr caller ->
  userId <> c_userId caller ->
  c_role caller <> "admin" ->
  get_user E K st authHeader userId = Response 403 (error_body "Access denied")
  /\ get_balance E K st authHeader userId = Response 403 (error_body "Access denied")
  /\ get_transactions E K st authHeader userId = Response 403 (error_body "Access denied").
Proof.
  intros Hauth Hid Hrole. unfold get_user, get_balance, get_transactions.
  rewrite Hauth, (authorize_refuses _ _ Hid Hrole). auto.
Qed.


(** A caller's requests for the resources under the caller's own id always
    succeed. *)
Theorem own_read_succeeds (st : state) (authHeader : option string) (caller : Claims) :
  authenticateToken E K st authHeader = inr caller ->
  status (get_user E K st authHeader (c_userId caller)) = 200%nat
  /\ status (get_balance E K st authHeader (c_userId caller)) = 200%nat
  /\ status (get_transactions E K st authHeader (c_userId caller)) = 200%nat.
Proof.
  intros Hauth.
  destruct (authenticated_user_exists _ _ _ Hauth) as (i & u & Hfind).
  unfold get_user, get_balance, get_transactions.
  rewrite Hauth, (authorize_allows caller (c_userId caller) (or_introl eq_refl)), Hfind. auto.
Qed.

(** Listing the users and modifying a balance are refused with status 403
    to a caller whose role is not [admin], whatever the target, and the
    store stays as it was. *)
Theorem admin_operation_needs_admin (st : state) (authHeader : option string)
    (caller : Claims) (userId : option string) (newBalance : option float) :
  authenticateToken E K st authHeader = inr caller ->
  c_role caller <> "admin" ->
  admin_users E K st authHeader = Response 403 (error_body "Admin access required")
  /\ admin_modify_balance E K st authHeader userId newBalance
     = (st, Response 403 (error_body "Admin access required")).
Proof.
  intros Hauth Hrole. unfold admin_users, admin_modify_balance, requireAdmin.
  apply String.eqb_neq in Hrole. rewrite Hauth, Hrole. auto.
Qed.


(** A transfer to the caller's own id is answered with status 400 and leaves
    the state as it was. *)
Theorem self_transfer_is_refused (st : state) (authHeader : option string) (caller : Claims)
    (amount : option float) (uuid now : string) :
  authenticateToken E K st authHeader = inr caller ->
  exists msg, send E K st authHeader (Some (c_userId caller)) amount uuid now
              = (st, Response 400 (error_body msg)).
Proof.
  intros Hauth. unfold send. rewrite Hauth.
  destruct (authenticated_user_exists _ _ _ Hauth) as (i & u & ->).
  destruct amount as [amt|]; [|eauto].
  destruct (String.eqb (c_userId caller) "" || falsy_num amt); [eauto|].
  destruct (PrimFloat.is_nan amt || (amt <=? 0)%float || (1000000 <? amt)%float); [eauto|].
  rewrite String.eqb_refl. eauto.
Qed.

(** A credential the middleware refuses is answered with one of four fixed
    bodies; none carries a text of the library. *)
Theorem refusals_are_fixed_messages (st : state) (authHeader : option string) (r : response) :
  authenticateToken E K st authHeader = inl r ->
  r = Response 401 (error_body "Access token required")
  \/ r = Response 403 (error_body "Token has been invalidated")
  \/ r = Response 403 (error_body "User not found")
  \/ r = Response 403 (error_body "Invalid or expired token").
Proof.
  unfold authenticateToken.
  destruct (bearer_token authHeader) as [token|]; [|intros [= <-]; auto].
  destruct (bool_decide (token ∈ invalidatedTokens st)); [intros [= <-]; auto|].
  destruct (jwt_verify E token K) as [|decoded]; [intros [= <-]; auto|].
  destruct (findUserById (users (db st)) (c_userId decoded)) as [[i u]|]; [discriminate|].
  intros [= <-]; auto.
Qed.

Lemma strong_line_has (s : string) (lo up di : bool) :
  strong_line lo up di s = true ->
  (lo = true \/ has_char is_lower s = true)
  /\ (up = true \/ has_char is_upper s = true)
  /\ (di = true \/ has_char is_digit s = true).
Proof.
  revert lo up di. induction s as [|c s IH]; intros lo up di H; [discriminate|].
  simpl in H. simpl has_char.
  destruct (is_line_end c).
  - apply IH in H. destruct H as ([?|Hl] & [?|Hu] & [?|Hd]); try discriminate.
    rewrite Hl, Hu, Hd, !orb_true_r. auto.
  - apply orb_true_iff in H as [H|H].
    + apply andb_true_iff in H as [H Hd]. apply andb_true_iff in H as [Hl Hu].
      apply orb_true_iff in Hl, Hu, Hd.
      repeat split.
      * destruct Hl as [->| ->]; auto.
      * destruct Hu as [->| ->]; auto.
      * destruct Hd as [->| ->]; auto.
    + apply IH in H. destruct H as (Hl & Hu & Hd).
      repeat split.
      * destruct Hl as [Hl|Hl];
          [apply orb_true_iff in Hl as [->| ->]; auto|rewrite Hl, orb_true_r; auto].
      * destruct Hu as [Hu|Hu];
          [apply orb_true_iff in Hu as [->| ->]; auto|rewrite Hu, orb_true_r; auto].
      * destruct Hd as [Hd|Hd];
          [apply orb_true_iff in Hd as [->| ->]; auto|rewrite Hd, orb_true_r; auto].
Qed.

Lemma validatePassword_accepts (pw : string) :
  validatePassword pw = None ->
  8 <= String.length pw
  /\ has_char is_lower pw = true /\ has_char is_upper pw = true /\ has_char is_digit pw = true.
Proof.
  unfold validatePassword.
  destruct (String.eqb pw "" || (String.length pw <? 8)%nat) eqn:Hlen; [discriminate|].
  destruct (strong_line false false false pw) eqn:Hstrong; [|discriminate].
  intros _. apply orb_false_iff in Hlen as [_ Hlen]. apply Nat.ltb_ge in Hlen.
  apply strong_line_has in Hstrong.
  destruct Hstrong as ([?|Hl] & [?|Hu] & [?|Hd]); try discriminate.
  auto.
Qed.

Lemma rateLimit_db (st : state) (clientIP : string) (now : Z) :
  db (fst (rateLimit st clientIP now)) = db st.
Proof.
  unfold rateLimit. destruct (rateLimitStore st !! clientIP) as [d|]; [|reflexivity].
  destruct (resetTime d <? now)%Z; [reflexivity|].
  destruct (RATE_LIMIT_MAX_ATTEMPTS <=? attempts d)%nat; reflexivity.
Qed.

Lemma rateLimit_refusal (st : state) (clientIP : string) (now : Z) (r : response) :
  snd (rateLimit st clientIP now) = Some r -> status r = 429%nat.
Proof.
  unfold rateLimit. destruct (rateLimitStore st !! clientIP) as [d|]; [|discriminate].
  destruct (resetTime d <? now)%Z; [discriminate|].
  destruct (RATE_LIMIT_MAX_ATTEMPTS <=? attempts d)%nat; [|discriminate].
  intros [= <-]. reflexivity.
Qed.


(** Registration, a transfer whose rounded amount is finite, and a balance
    modification keep every balance at or above zero. *)
Theorem secure_balances_stay_nonneg (st : state) :
  nonneg_balances (db st) ->
  (forall clientIP now username password email uuid createdAt,
      nonneg_balances (db (fst (register E st clientIP now username password email uuid createdAt))))
  /\ (forall authHeader recipientId amount uuid now,
         (forall amt, amount = Some amt -> finite (round2 amt) = true) ->
         nonneg_balances (db (fst (send E K st authHeader recipientId amount uuid now))))
  /\ (forall authHeader userId newBalance,
         nonneg_balances (db (fst (admin_modify_balance E K st authHeader userId newBalance)))).
Proof.
  intros Hs. split; [|split].
  - intros clientIP now username password email uuid createdAt. unfold register.
    pose proof (rateLimit_db st clientIP now) as Hdb.
    destruct (rateLimit st clientIP now) as [st1 [r1|]]; simpl in Hdb;
      [simpl; rewrite Hdb; exact Hs|].
    assert (Hs1 : nonneg_balances (db st1)) by (rewrite Hdb; exact Hs).
    destruct username as [name|]; [|exact Hs1].
    destruct password as [pw|]; [|exact Hs1].
    destruct email as [mail|]; [|exact Hs1].
    destruct (String.eqb name "" || String.eqb pw "" || String.eqb mail ""); [exact Hs1|].
    destruct ((String.length (sanitizeInput name) <? 3)%nat
              || (30 <? String.length (sanitizeInput name))%nat); [exact Hs1|].
    destruct (negb (emailRegex_test (sanitizeInput mail))); [exact Hs1|].
    destruct (findUserByUsername (users (db st1)) (sanitizeInput name)); [exact Hs1|].
    destruct (validatePassword pw); [exact Hs1|].
    intros u Hu. simpl in Hu. apply elem_of_app in Hu as [Hu|Hu]; [apply Hs1, Hu|].
    apply list_elem_of_singleton in Hu. subst u. reflexivity.
  - intros authHeader recipientId amount uuid now Hfin. unfold send.
    destruct (authenticateToken E K st authHeader) as [|caller]; [exact Hs|].
    destruct recipientId as [rid|]; [|exact Hs].
    destruct amount as [amt|]; [|exact Hs].
    destruct (String.eqb rid "" || falsy_num amt); [exact Hs|].
    destruct (PrimFloat.is_nan amt || (amt <=? 0)%float || (1000000 <? amt)%float) eqn:Hguard;
      [exact Hs|].
    destruct (findUserById (users (db st)) (c_userId caller)) as [[i sender]|] eqn:Hi; [|exact Hs].
    destruct (findUserById (users (db st)) rid) as [[j recipient]|]; [|exact Hs].
    destruct (String.eqb (u_id sender) (u_id recipient)); [exact Hs|].
    destruct (u_balance sender <? round2 amt)%float eqn:Hlt; [exact Hs|].
    apply orb_false_iff in Hguard as [Hguard _].
    apply orb_false_iff in Hguard as [Hnan Hpos].
    assert (Hamt : (0 <=? round2 amt)%float = true)
      by (apply Binary64.round2_nonneg, Binary64.positive_is_nonneg; assumption).
    apply findUserById_Some in Hi as [Hi _].
    intros u Hu. simpl in Hu. revert u Hu.
    apply alter_keeps_all.
    + apply alter_keeps_all; [exact Hs|].
      intros v Hv Hv0. unfold debit. simpl.
      rewrite Hi in Hv. injection Hv as <-.
      apply Binary64.round2_nonneg, Binary64.sub_keeps_nonneg; auto.
    + intros v _ Hv0. unfold credit. simpl.
      apply Binary64.round2_nonneg, Binary64.add_keeps_nonneg; auto.
  - intros authHeader userId newBalance. unfold admin_modify_balance.
    destruct (authenticateToken E K st authHeader) as [|caller]; [exact Hs|].
    destruct (requireAdmin caller); [exact Hs|].
    destruct userId as [uid|]; [|exact Hs].
    destruct newBalance as [b|]; [|exact Hs].
    destruct (String.eqb uid ""); [exact Hs|].
    destruct (PrimFloat.is_nan b || (b <? 0)%float || (10000000 <? b)%float) eqn:Hguard;
      [exact Hs|].
    destruct (findUserById (users (db st)) uid) as [[i found]|]; [|exact Hs].
    apply orb_false_iff in Hguard as [Hguard _].
    apply orb_false_iff in Hguard as [Hnan Hlo].
    intros u Hu. simpl in Hu. revert u Hu.
    apply alter_keeps_all; [exact Hs|].
    intros v _ _. simpl.
    apply Binary64.round2_nonneg, Binary64.not_negative_is_nonneg; assumption.
Qed.
End Facts.

End SecureFacts.

(** * The servers at work: concrete requests *)

Module Runs.

Import Scenario.

(** C10, at a concrete store: one transfer from alice to bob is on record,
    and alice asks for the history of an id nobody has. *)
Lemma transactions_of_unknown_user_witness :
  Insecure.get_transactions double
    (fst (Insecure.send double with_bob alice_header (Some "id-bob") (Some 25%float) "tx-1" "t1"))
    alice_header "id-nobody"
  = Response 200 (JObj [("transactions", JArr [])]).
Proof.
  apply (transactions_of_unknown_user_are_empty double _ alice_header
           (mkClaims "id-alice" "alice" "user") "id-nobody").
  - reflexivity.
  - reflexivity.
  - intros t Ht. apply list_elem_of_singleton in Ht. subst t.
    split; discriminate.
Defined.

(** C1. In [server.js] a caller who is not an admin is served another
    user's balance, profile and transaction history: alice, whose role is
    [user], reads bob's with status 200 where the policy answers Forbidden. *)
Theorem any_caller_reads_another_users_data :
  Insecure.authenticateToken double alice_header = inr (mkClaims "id-alice" "alice" "user")
  /\ Insecure.get_balance double with_bob alice_header "id-bob"
     = Response 200 (JObj [("balance", JNum 1000)])
  /\ Insecure.get_user double with_bob alice_header "id-bob"
     = Response 200 (JObj [("id", JStr "id-bob"); ("username", JStr "bob");
                           ("email", JStr "bob@wallet.com");
                           ("balance", JNum 1000); ("role", JStr "user")])
  /\ Insecure.get_transactions double with_bob alice_header "id-bob"
     = Response 200 (JObj [("transactions", JArr [])]).
Proof. repeat split. Qed.

(** C2. In [server.js] the admin operations are open to a caller whose role
    is [user]: alice lists every account, and sets bob's balance to [-5],
    a value outside any range [0, ceiling]. *)
Theorem admin_operations_are_open_to_any_caller :
  Insecure.authenticateToken double alice_header = inr (mkClaims "id-alice" "alice" "user")
  /\ status (Insecure.admin_users double with_bob alice_header) = 200%nat
  /\ status (snd (Insecure.admin_modify_balance double with_bob alice_header "id-bob" (-5)%float))
     = 200%nat
  /\ field "user" (body (snd (Insecure.admin_modify_balance double with_bob alice_header "id-bob" (-5)%float)))
     = Some (JObj [("id", JStr "id-bob"); ("username", JStr "bob"); ("balance", JNum (-5))])
  /\ balance_of (fst (Insecure.admin_modify_balance double with_bob alice_header "id-bob" (-5)%float))
       "id-bob" = Some (-5)%float.
Proof. repeat split. Qed.

(** C3. In [server.js] a balance modification leaves a negative balance in
    the store: after [modify-balance] with [newBalance = -5], asked by the
    admin, bob's balance is [-5], below zero. *)
Theorem modify_balance_stores_a_negative_balance :
  Insecure.authenticateToken double admin_header = inr (mkClaims "id-admin" "admin" "admin")
  /\ balance_of (fst (Insecure.admin_modify_balance double with_bob admin_header "id-bob" (-5)%float))
       "id-bob" = Some (-5)%float
  /\ (-5 <? 0)%float = true.
Proof. repeat split. Qed.

(** C4. In [server.js] a transfer rounds nothing: an amount of [0.005] is
    compared, subtracted, added and recorded as it came, leaving balances
    of [999.995] and [1000.005] where rounding to two decimals makes the
    amount [0.01]; an amount of [1000.005] against a balance of [1000] is
    refused for insufficient funds as it came. *)
Theorem transfer_amounts_are_not_rounded :
  status (snd (Insecure.send double with_bob alice_header (Some "id-bob") (Some 0.005%float) "tx-1" "t1"))
  = 200%nat
  /\ balance_of (fst (Insecure.send double with_bob alice_header (Some "id-bob") (Some 0.005%float) "tx-1" "t1"))
       "id-alice" = Some 999.995%float
  /\ balance_of (fst (Insecure.send double with_bob alice_header (Some "id-bob") (Some 0.005%float) "tx-1" "t1"))
       "id-bob" = Some 1000.005%float
  /\ map t_amount
       (transactions (fst (Insecure.send double with_bob alice_header (Some "id-bob") (Some 0.005%float) "tx-1" "t1")))
     = [0.005%float]
  /\ Secure.round2 0.005 = 0.01%float
  /\ Insecure.send double with_bob alice_header (Some "id-bob") (Some 1000.005%float) "tx-1" "t1"
     = (with_bob, Response 400 (error_body "Insufficient funds")).
Proof. repeat split. Qed.

(** C5. In [server.js] a transfer from a user to that same user is carried
    out: alice sending 10 to alice is answered with status 200 and a
    transaction from alice to alice is appended. *)
Theorem self_transfer_is_carried_out :
  status (snd (Insecure.send double with_bob alice_header (Some "id-alice") (Some 10%float) "tx-1" "t1"))
  = 200%nat
  /\ field "message" (body (snd (Insecure.send double with_bob alice_header (Some "id-alice") (Some 10%float) "tx-1" "t1")))
     = Some (JStr "Transfer successful")
  /\ transactions (fst (Insecure.send double with_bob alice_header (Some "id-alice") (Some 10%float) "tx-1" "t1"))
     = [mkTransaction "tx-1" "id-alice" "id-alice" 10 "t1" "transfer"].
Proof. repeat split. Qed.

(** C6. In [server.js] a token that fails verification is answered with the
    library's own error message under [details], so two failures are told
    apart: a malformed token and one signed with another key get different
    bodies. *)
Theorem token_failures_are_told_apart :
  Insecure.authenticateToken double (Some "Bearer garbage")
  = inl (Response 403 (JObj [("error", JStr "Invalid token"); ("details", JStr "jwt malformed")]))
  /\ Insecure.authenticateToken double (Some "Bearer guess.id-admin.admin.admin")
     = inl (Response 403 (JObj [("error", JStr "Invalid token"); ("details", JStr "invalid signature")])).
Proof. split; reflexivity. Qed.

(** C7. In [server.js] registration accepts a two-character username and a
    five-character password without digit or capital: both requests are
    answered with status 201 and a user is added to the store. *)
Theorem weak_registrations_are_accepted :
  status (snd (Insecure.register double started (Some "ab") (Some "Password1") (Some "a@b.com") "id-1"))
  = 201%nat
  /\ map u_username (users (fst (Insecure.register double started (Some "ab") (Some "Password1") (Some "a@b.com") "id-1")))
     = ["admin"; "ab"]
  /\ status (snd (Insecure.register double started (Some "alice") (Some "short") (Some "a@b.com") "id-1"))
     = 201%nat
  /\ map u_username (users (fst (Insecure.register double started (Some "alice") (Some "short") (Some "a@b.com") "id-1")))
     = ["admin"; "alice"].
Proof. repeat split. Qed.



(** Two transfers of 600 from alice, who holds 1000, handled one after the
    other: the first succeeds, the second is refused for insufficient
    funds, and alice is left with 400. *)
Theorem two_transfers_in_turn :
  map status (snd (Insecure.serve double with_bob
                     [Insecure.Send alice_header (Some "id-bob") (Some 600%float) "tx-1" "t1";
                      Insecure.Send alice_header (Some "id-bob") (Some 600%float) "tx-2" "t2"]))
  = [200%nat; 400%nat]
  /\ map body (snd (Insecure.serve double with_bob
                     [Insecure.Send alice_header (Some "id-bob") (Some 600%float) "tx-1" "t1";
                      Insecure.Send alice_header (Some "id-bob") (Some 600%float) "tx-2" "t2"])) !! 1%nat
     = Some (error_body "Insufficient funds")
  /\ balance_of (fst (Insecure.serve double with_bob
                     [Insecure.Send alice_header (Some "id-bob") (Some 600%float) "tx-1" "t1";
                      Insecure.Send alice_header (Some "id-bob") (Some 600%float) "tx-2" "t2"]))
       "id-alice" = Some 400%float
  /\ balance_of (fst (Insecure.serve double with_bob
                     [Insecure.Send alice_header (Some "id-bob") (Some 600%float) "tx-1" "t1";
                      Insecure.Send alice_header (Some "id-bob") (Some 600%float) "tx-2" "t2"]))
       "id-bob" = Some 1600%float.
Proof. repeat split. Qed.

(** In [server-secure.js] an amount of [1000.005] is rounded to [1000.01]
    before the comparison: against a balance of [1000] the transfer is
    refused for insufficient funds and the state stays as it was. *)
Theorem rounded_amount_exceeds_the_balance :
  Secure.round2 1000.005 = 1000.01%float
  /\ Secure.send double secret secure_with_bob alice_token (Some "id-bob") (Some 1000.005%float) "tx-1" "t1"
     = (secure_with_bob, Response 400 (error_body "Insufficient funds")).
Proof. split; reflexivity. Qed.

(** In [server-secure.js] the rounding works on the binary64 product
    [amount * 100]: [1.005 * 100] lies below [100.5], so [1.005] becomes
    [1] and not [1.01]; and an amount of [0.001] becomes [0], which is then
    transferred and recorded as a transaction of amount [0]. *)
Theorem secure_rounding_edge_cases :
  (1.005 * 100 <? 100.5)%float = true
  /\ Secure.round2 1.005 = 1%float
  /\ Secure.round2 0.001 = 0%float
  /\ status (snd (Secure.send double secret secure_with_bob alice_token (Some "id-bob")
                    (Some 0.001%float) "tx-1" "t1")) = 200%nat
  /\ map t_amount
       (transactions (Secure.db (fst (Secure.send double secret secure_with_bob alice_token
                                        (Some "id-bob") (Some 0.001%float) "tx-1" "t1"))))
     = [0%float].
Proof. repeat split. Qed.

(** Alice is served bob's profile and balance. *)
Lemma any_existing_user_is_served_witness :
  Insecure.get_user double with_bob alice_header "id-bob"
  = Response 200 (Insecure.profile_json
                    (mkUser "id-bob" "bob" (Some "bob@wallet.com") "$2a$456" 1000 "user" None))
  /\ Insecure.get_balance double with_bob alice_header "id-bob"
     = Response 200 (JObj [("balance", JNum 1000)]).
Proof.
  apply (InsecureFacts.any_existing_user_is_served double with_bob alice_header
           (mkClaims "id-alice" "alice" "user") "id-bob" 2
           (mkUser "id-bob" "bob" (Some "bob@wallet.com") "$2a$456" 1000 "user" None)).
  - reflexivity.
  - reflexivity.
Defined.

(** A transfer of [-5] is refused and changes nothing. *)
Lemma non_positive_amount_witness :
  Insecure.send double with_bob alice_header (Some "id-bob") (Some (-5)%float) "tx-1" "t1"
  = (with_bob, Response 400 (error_body "Valid recipient and amount required")).
Proof.
  apply (InsecureFacts.non_positive_amount_is_refused double with_bob alice_header (Some "id-bob")
           (mkClaims "id-alice" "alice" "user") (-5)%float "tx-1" "t1").
  - reflexivity.
  - reflexivity.
Defined.

(** Bob is still bob after his balance has been overwritten. *)
Lemma handle_keeps_identities_witness :
  exists u', users (fst (Insecure.handle double with_bob
                           (Insecure.ModifyBalance alice_header "id-bob" (-5)%float))) !! 2%nat
             = Some u'
             /\ u_id u' = "id-bob" /\ u_username u' = "bob".
Proof.
  apply (InsecureFacts.handle_keeps_identities double with_bob
           (Insecure.ModifyBalance alice_header "id-bob" (-5)%float) 2
           (mkUser "id-bob" "bob" (Some "bob@wallet.com") "$2a$456" 1000 "user" None)).
  reflexivity.
Defined.

(** The three balances of the run are at or above zero. *)
Lemma with_bob_nonneg : nonneg_balances with_bob.
Proof.
  intros u Hu. repeat (apply elem_of_cons in Hu as [->|Hu]; [reflexivity|]).
  apply elem_of_nil in Hu. destruct Hu.
Qed.

(** They stay so when carol registers and when alice sends bob [0.005]. *)
Lemma balances_stay_nonneg_witness :
  nonneg_balances (fst (Insecure.register double with_bob (Some "carol") (Some "789") None "id-carol"))
  /\ nonneg_balances (fst (Insecure.send double with_bob alice_header (Some "id-bob")
                             (Some 0.005%float) "tx-1" "t1")).
Proof.
  destruct (InsecureFacts.balances_stay_nonneg double with_bob with_bob_nonneg) as [Hreg Hsend].
  split.
  - apply Hreg.
  - apply Hsend. intros amt [= <-]. reflexivity.
Defined.

(** The text thrown for a malformed token reaches the caller. *)
Lemma token_error_witness :
  Insecure.authenticateToken double (Some "Bearer garbage")
  = inl (Response 403 (JObj [("error", JStr "Invalid token"); ("details", JStr "jwt malformed")])).
Proof.
  apply (InsecureFacts.token_error_carries_the_library_message double (Some "Bearer garbage")
           "garbage" "jwt malformed").
  - reflexivity.
  - reflexivity.
Defined.

(** The remediated server refuses alice what belongs to bob. *)
Lemma foreign_read_witness :
  Secure.get_user double secret secure_with_bob alice_token "id-bob"
  = Response 403 (error_body "Access denied")
  /\ Secure.get_balance double secret secure_with_bob alice_token "id-bob"
     = Response 403 (error_body "Access denied")
  /\ Secure.get_transactions double secret secure_with_bob alice_token "id-bob"
     = Response 403 (error_body "Access denied").
Proof.
  apply (SecureFacts.foreign_read_is_forbidden double secret secure_with_bob alice_token
           (mkClaims "id-alice" "alice" "user") "id-bob").
  - reflexivity.
  - discriminate.
  - discriminate.
Defined.


(** Alice is served what belongs to alice. *)
Lemma own_read_witness :
  status (Secure.get_user double secret secure_with_bob alice_token "id-alice") = 200%nat
  /\ status (Secure.get_balance double secret secure_with_bob alice_token "id-alice") = 200%nat
  /\ status (Secure.get_transactions double secret secure_with_bob alice_token "id-alice") = 200%nat.
Proof.
  apply (SecureFacts.own_read_succeeds double secret secure_with_bob alice_token
           (mkClaims "id-alice" "alice" "user")).
  reflexivity.
Defined.

(** Alice, who is no admin, is refused both admin operations. *)
Lemma admin_operation_witness :
  Secure.admin_users double secret secure_with_bob alice_token
  = Response 403 (error_body "Admin access required")
  /\ Secure.admin_modify_balance double secret secure_with_bob alice_token (Some "id-bob") (Some 5%float)
     = (secure_with_bob, Response 403 (error_body "Admin access required")).
Proof.
  apply (SecureFacts.admin_operation_needs_admin double secret secure_with_bob alice_token
           (mkClaims "id-alice" "alice" "user") (Some "id-bob") (Some 5%float)).
  - reflexivity.
  - discriminate.
Defined.


(** Alice's transfer to herself is refused by the remediated server. *)
Lemma self_transfer_refused_witness :
  exists msg,
    Secure.send double secret secure_with_bob alice_token (Some "id-alice") (Some 10%float) "tx-1" "t1"
    = (secure_with_bob, Response 400 (error_body msg)).
Proof.
  apply (SecureFacts.self_transfer_is_refused double secret secure_with_bob alice_token
           (mkClaims "id-alice" "alice" "user") (Some 10%float) "tx-1" "t1").
  reflexivity.
Defined.

(** A malformed token is answered with one of the fixed bodies. *)
Lemma refusals_witness :
  Response 403 (error_body "Invalid or expired token")
  = Response 401 (error_body "Access token required")
  \/ Response 403 (error_body "Invalid or expired token")
     = Response 403 (error_body "Token has been invalidated")
  \/ Response 403 (error_body "Invalid or expired token")
     = Response 403 (error_body "User not found")
  \/ Response 403 (error_body "Invalid or expired token")
     = Response 403 (error_body "Invalid or expired token").
Proof.
  apply (SecureFacts.refusals_are_fixed_messages double secret secure_with_bob
           (Some "Bearer garbage")).
  reflexivity.
Defined.


(** The balances of the remediated run are at or above zero. *)
Lemma secure_with_bob_nonneg : nonneg_balances (Secure.db secure_with_bob).
Proof.
  intros u Hu. repeat (apply elem_of_cons in Hu as [->|Hu]; [reflexivity|]).
  apply elem_of_nil in Hu. destruct Hu.
Qed.

(** They stay so after a transfer of [0.005] and a balance modification. *)
Lemma secure_balances_stay_nonneg_witness :
  nonneg_balances (Secure.db (fst (Secure.send double secret secure_with_bob alice_token
                                     (Some "id-bob") (Some 0.005%float) "tx-1" "t1")))
  /\ nonneg_balances (Secure.db (fst (Secure.admin_modify_balance double secret secure_with_bob
                                        admin_token (Some "id-bob") (Some 250.129%float)))).
Proof.
  destruct (SecureFacts.secure_balances_stay_nonneg double secret secure_with_bob
              secure_with_bob_nonneg) as (_ & Hsend & Hmodify).
  split.
  - apply Hsend. intros amt [= <-]. reflexivity.
  - apply Hmodify.
Defined.

End Runs.
(** * Lookups after updates *)

(** Looking a user up by id after an in-place update that keeps the ids
    finds the same position, with the update applied when it is the
    position updated. *)
Lemma findUserById_alter (f : User -> User) (us : list User) (i : nat) (id : string) :
  (forall v, u_id (f v) = u_id v) ->
  findUserById (alter f i us) id
  = (fun p => (p.1, if decide (p.1 = i) then f p.2 else p.2)) <$> findUserById us id.
Proof.
  intros Hf. unfold findUserById. revert i.
  induction us as [|x l IH]; intros i; [reflexivity|].
  destruct i as [|i]; simpl.
  - rewrite Hf. destruct (decide (u_id x = id)); [reflexivity|].
    destruct (list_find (fun u => u_id u = id) l) as [[k y]|]; reflexivity.
  - destruct (decide (u_id x = id)); [reflexivity|].
    change (list_alter f i l) with (alter f i l). rewrite IH.
    destruct (list_find (fun u => u_id u = id) l) as [[k y]|]; [|reflexivity].
    simpl. destruct (decide (k = i)), (decide (S k = S i)); try reflexivity; lia.
Qed.



(** * [server.js]: how the requests compose *)

Module InsecureFlows.

Import Insecure.

Section Flows.

Variable E : Externals.

(** What a successful transfer leaves: the two in-place updates, and one
    more transaction. *)
Lemma send_succeeds (s s' : store) (authHeader recipientId : option string)
    (amount : option float) (uuid now : string) (r : response) :
  send E s authHeader recipientId amount uuid now = (s', r) ->
  status r = 200%nat ->
  exists (caller : Claims) (rid : string) (amt : float) (i j : nat) (sender recipient : User),
    authenticateToken E authHeader = inr caller
    /\ recipientId = Some rid /\ amount = Some amt
    /\ (amt <=? 0)%float = false /\ PrimFloat.is_nan amt = false
    /\ findUserById (users s) (c_userId caller) = Some (i, sender)
    /\ findUserById (users s) rid = Some (j, recipient)
    /\ users s' = alter (credit amt) j (alter (debit amt) i (users s))
    /\ transactions s'
       = transactions s ++ [mkTransaction uuid (c_userId caller) rid amt now "transfer"]
    /\ body r = JObj [("message", JStr "Transfer successful");
                      ("transaction",
                       transaction_json (mkTransaction uuid (c_userId caller) rid amt now "transfer"));
                      ("newBalance",
                       JNum (match users s' !! i with
                             | Some sender' => u_balance sender'
                             | None => u_balance sender
                             end))].
Proof.
  unfold send. intros Hsend Hok.
  destruct (authenticateToken E authHeader) as [r0|caller] eqn:Hauth.
  { injection Hsend as _ <-. apply InsecureFacts.insecure_refusal_status in Hauth.
    rewrite Hok in Hauth. destruct Hauth; discriminate. }
  destruct recipientId as [rid|]; [|injection Hsend as _ <-; discriminate].
  destruct amount as [amt|]; [|injection Hsend as _ <-; discriminate].
  destruct (String.eqb rid "" || falsy_num amt || (amt <=? 0)%float) eqn:Hguard;
    [injection Hsend as _ <-; discriminate|].
  destruct (findUserById (users s) (c_userId caller)) as [[i sender]|] eqn:Hs;
    [|injection Hsend as _ <-; discriminate].
  destruct (findUserById (users s) rid) as [[j recipient]|] eqn:Hr;
    [|injection Hsend as _ <-; discriminate].
  destruct (u_balance sender <? amt)%float; [injection Hsend as _ <-; discriminate|].
  injection Hsend as <- <-.
  apply orb_false_iff in Hguard as [Hguard Hpos].
  apply orb_false_iff in Hguard as [_ Hnum].
  unfold falsy_num in Hnum. apply orb_false_iff in Hnum as [_ Hnan].
  exists caller, rid, amt, i, j, sender, recipient.
  repeat (split; [reflexivity || assumption|]). reflexivity.
Qed.

(** A request that is not answered with status 200 or 201 leaves the store
    exactly as it was. *)
Theorem failed_request_changes_nothing (s : store) (req : request) :
  status (snd (handle E s req)) <> 200%nat ->
  status (snd (handle E s req)) <> 201%nat ->
  fst (handle E s req) = s.
Proof.
  destruct req as [username password email uuid
                  |authHeader recipientId amount uuid now
                  |authHeader userId newBalance]; simpl; intros H200 H201.
  - unfold register in *.
    destruct username as [name|]; [|reflexivity].
    destruct password as [pw|]; [|reflexivity].
    destruct (String.eqb name "" || String.eqb pw ""); [reflexivity|].
    destruct (findUserByUsername (users s) name); [reflexivity|].
    simpl in H201. congruence.
  - unfold send in *.
    destruct (authenticateToken E authHeader); [reflexivity|].
    destruct recipientId as [rid|]; [|reflexivity].
    destruct amount as [amt|]; [|reflexivity].
    destruct (String.eqb rid "" || falsy_num amt || (amt <=? 0)%float); [reflexivity|].
    destruct (findUserById (users s) (c_userId c)) as [[i sender]|]; [|reflexivity].
    destruct (findUserById (users s) rid) as [[j recipient]|]; [|reflexivity].
    destruct (u_balance sender <? amt)%float; [reflexivity|].
    simpl in H200. congruence.
  - unfold admin_modify_balance in *.
    destruct (authenticateToken E authHeader); [reflexivity|].
    destruct (findUserById (users s) userId) as [[i user]|]; [|reflexivity].
    simpl in H200. congruence.
Qed.

(** The balance an admin request has written is the balance read back. *)
Theorem modify_then_read_balance (s : store) (authHeader : option string) (caller : Claims)
    (userId : string) (newBalance : float) (i : nat) (u : User) :
  authenticateToken E authHeader = inr caller ->
  findUserById (users s) userId = Some (i, u) ->
  get_balance E (fst (admin_modify_balance E s authHeader userId newBalance)) authHeader userId
  = Response 200 (JObj [("balance", JNum newBalance)]).
Proof.
  intros Hauth Hfind. unfold admin_modify_balance, get_balance.
  rewrite Hauth, Hfind. simpl.
  rewrite findUserById_alter by reflexivity. rewrite Hfind. simpl.
  destruct (decide (i = i)); [reflexivity|congruence].
Qed.

(** The [newBalance] a successful transfer reports is the balance the
    sender then reads. *)
Theorem new_balance_is_the_stored_balance (s s' : store) (authHeader recipientId : option string)
    (amount : option float) (uuid now : string) (r : response) :
  send E s authHeader recipientId amount uuid now = (s', r) ->
  status r = 200%nat ->
  exists (caller : Claims) (b : float),
    authenticateToken E authHeader = inr caller
    /\ field "newBalance" (body r) = Some (JNum b)
    /\ get_balance E s' authHeader (c_userId caller) = Response 200 (JObj [("balance", JNum b)]).
Proof.
  intros Hsend Hok.
  destruct (send_succeeds _ _ _ _ _ _ _ _ Hsend Hok)
    as (caller & rid & amt & i & j & sender & recipient
        & Hauth & _ & _ & _ & _ & Hs & _ & Husers & _ & Hbody).
  assert (Hfind : exists u', findUserById (users s') (c_userId caller) = Some (i, u')).
  { rewrite Husers. rewrite !findUserById_alter by reflexivity. rewrite Hs. simpl. eauto. }
  destruct Hfind as [u' Hfind].
  exists caller, (u_balance u'). split; [exact Hauth|].
  pose proof (findUserById_Some _ _ _ _ Hfind) as [Hlook _].
  rewrite Hbody, Hlook. split; [reflexivity|].
  unfold get_balance. rewrite Hauth, Hfind. reflexivity.
Qed.

(** After a successful transfer the new transaction closes the history of
    the sender and that of the recipient, and every other history is as it
    was. *)
Theorem transfer_is_on_both_histories (s s' : store) (authHeader recipientId : option string)
    (amount : option float) (uuid now : string) (r : response) :
  send E s authHeader recipientId amount uuid now = (s', r) ->
  status r = 200%nat ->
  exists (caller : Claims) (rid : string) (amt : float),
    authenticateToken E authHeader = inr caller
    /\ recipientId = Some rid /\ amount = Some amt
    /\ (forall userId, userId = c_userId caller \/ userId = rid ->
        filter (fun t => involves userId t) (transactions s')
        = filter (fun t => involves userId t) (transactions s)
            ++ [mkTransaction uuid (c_userId caller) rid amt now "transfer"])
    /\ (forall userId, userId <> c_userId caller -> userId <> rid ->
        get_transactions E s' authHeader userId = get_transactions E s authHeader userId).
Proof.
  intros Hsend Hok.
  destruct (send_succeeds _ _ _ _ _ _ _ _ Hsend Hok)
    as (caller & rid & amt & i & j & sender & recipient
        & Hauth & Hrid & Hamt & _ & _ & _ & _ & _ & Htx & _).
  exists caller, rid, amt. do 3 (split; [assumption|]). split.
  - intros userId Hwho. rewrite Htx, filter_app. f_equal.
    rewrite filter_cons_True; [reflexivity|].
    unfold involves. simpl. destruct Hwho as [-> | ->].
    + rewrite String.eqb_refl. exact I.
    + rewrite String.eqb_refl, orb_true_r. exact I.
  - intros userId Hs Hr. unfold get_transactions. rewrite Hauth, Htx, filter_app.
    rewrite (filter_cons_False _ _ []); [rewrite app_nil_r; reflexivity|].
    rewrite involves_false by (simpl; congruence). intros [].
Qed.

End Flows.

End InsecureFlows.

(** * Reading the [Authorization] header *)








Module InsecureSessions.
Import Insecure.
Section Sessions.
Variable E : Externals.

(** A login either fails with the one answer [401 Invalid credentials],
    the same for an unknown user and for a wrong password, or succeeds for a
    stored user whose hash matches, with a token signed for that user's id,
    name and role. *)
Theorem login_is_all_or_nothing (s : store) (username password : string) :
  login E s username password = Response 401 (error_body "Invalid credentials")
  \/ exists (i : nat) (user : User),
       findUserByUsername (users s) username = Some (i, user)
       /\ bcrypt_compare E password (u_password user) = true
       /\ status (login E s username password) = 200%nat
       /\ field "token" (body (login E s username password))
          = Some (JStr (jwt_sign E (mkClaims (u_id user) username (u_role user)) JWT_SECRET)).
Proof.
  unfold login.
  destruct (findUserByUsername (users s) username) as [[i user]|] eqn:Hfind; [|left; reflexivity].
  destruct (bcrypt_compare E password (u_password user)) eqn:Hpw; [|left; reflexivity].
  right. exists i, user. split; [reflexivity|]. split; [exact Hpw|]. split; [reflexivity|].
  apply list_find_Some in Hfind as (_ & Hname & _). simpl in Hname.
  unfold field. simpl. rewrite Hname. reflexivity.
Qed.






End Sessions.
End InsecureSessions.
(** * [server-secure.js]: sessions, rate limiting and the users on record *)

Module SecureFlows.

Import Secure.

Section Flows.

Variable E : Externals.
Variable K : string.
Variable sign_expiring : Claims -> Z -> string -> string -> string.

(** ** [rateLimit] *)

Lemma rateLimit_keeps_revoked (st : state) (clientIP : string) (now : Z) :
  invalidatedTokens (fst (rateLimit st clientIP now)) = invalidatedTokens st.
Proof.
  unfold rateLimit. destruct (rateLimitStore st !! clientIP) as [d|]; [|reflexivity].
  destruct (resetTime d <? now)%Z; [reflexivity|].
  destruct (RATE_LIMIT_MAX_ATTEMPTS <=? attempts d)%nat; reflexivity.
Qed.

(** Within the window the middleware counts: the entry [(n, r)] becomes
    [(n + 1, r)] while [n] is below the maximum, and is left alone and
    answered 429 from there on. *)
Lemma rateLimit_counts (st : state) (clientIP : string) (n : nat) (r now : Z) :
  rateLimitStore st !! clientIP = Some (mkRate n r) -> (now <= r)%Z ->
  rateLimit st clientIP now
  = if (RATE_LIMIT_MAX_ATTEMPTS <=? n)%nat
    then (st, Some (Response 429 (error_body "Too many requests. Please try again later.")))
    else (mkState (db st) (invalidatedTokens st)
            (<[clientIP := mkRate (S n) r]> (rateLimitStore st)), None).
Proof.
  intros Hentry Hnow. unfold rateLimit. rewrite Hentry. simpl.
  destruct (r <? now)%Z eqn:Hlt; [apply Z.ltb_lt in Hlt; lia|reflexivity].
Qed.

Lemma knocks_cons (st : state) (clientIP : string) (t : Z) (ts : list Z) :
  knocks st clientIP (t :: ts)
  = (fst (knocks (fst (rateLimit st clientIP t)) clientIP ts),
     snd (rateLimit st clientIP t) :: snd (knocks (fst (rateLimit st clientIP t)) clientIP ts)).
Proof.
  simpl. destruct (rateLimit st clientIP t) as [st1 r]. simpl.
  destruct (knocks st1 clientIP ts) as [st2 rs]. reflexivity.
Qed.

Lemma knocks_counted (ts : list Z) (st : state) (clientIP : string) (n : nat) (r : Z) :
  rateLimitStore st !! clientIP = Some (mkRate n r) ->
  Forall (fun t => (t <= r)%Z) ts ->
  snd (knocks st clientIP ts)
  = replicate (min (length ts) (RATE_LIMIT_MAX_ATTEMPTS - n)) None
    ++ replicate (length ts - (RATE_LIMIT_MAX_ATTEMPTS - n))
         (Some (Response 429 (error_body "Too many requests. Please try again later.")))
  /\ exists n', rateLimitStore (fst (knocks st clientIP ts)) !! clientIP = Some (mkRate n' r).
Proof.
  revert st n. induction ts as [|t ts IH]; intros st n Hentry Hts.
  - split; [reflexivity|]. exists n. exact Hentry.
  - apply Forall_cons in Hts as [Ht Hts].
    rewrite knocks_cons, (rateLimit_counts _ _ _ _ _ Hentry Ht).
    change (length (t :: ts)) with (S (length ts)).
    unfold RATE_LIMIT_MAX_ATTEMPTS in *.
    destruct (5 <=? n)%nat eqn:Hmax; cbn [fst snd].
    + apply Nat.leb_le in Hmax.
      destruct (IH st n Hentry Hts) as [Hans Hkeep]. split; [|exact Hkeep].
      rewrite Hans. replace (5 - n) with 0 by lia.
      rewrite !Nat.min_0_r, !Nat.sub_0_r. reflexivity.
    + apply Nat.leb_gt in Hmax.
      assert (Hentry' : rateLimitStore
                          (mkState (db st) (invalidatedTokens st)
                             (<[clientIP := mkRate (S n) r]> (rateLimitStore st))) !! clientIP
                        = Some (mkRate (S n) r)) by apply lookup_insert_eq.
      destruct (IH _ (S n) Hentry' Hts) as [Hans Hkeep]. split; [|exact Hkeep].
      rewrite Hans.
      replace (min (S (length ts)) (5 - n)) with (S (min (length ts) (5 - S n))) by lia.
      replace (S (length ts) - (5 - n)) with (length ts - (5 - S n)) by lia.
      reflexivity.
Qed.

(** An address not seen before is let in five times in the window that its
    first request opens; whatever else it sends in that window is answered
    429; and the first request after the window is let in again. *)
Theorem rate_limit_allows_five_per_window (st : state) (clientIP : string) (t0 : Z) (ts : list Z) :
  rateLimitStore st !! clientIP = None ->
  Forall (fun t => (t <= t0 + RATE_LIMIT_WINDOW)%Z) ts ->
  snd (knocks st clientIP (t0 :: ts))
  = replicate (min (length (t0 :: ts)) RATE_LIMIT_MAX_ATTEMPTS) None
    ++ replicate (length (t0 :: ts) - RATE_LIMIT_MAX_ATTEMPTS)
         (Some (Response 429 (error_body "Too many requests. Please try again later.")))
  /\ forall later, (t0 + RATE_LIMIT_WINDOW < later)%Z ->
       snd (rateLimit (fst (knocks st clientIP (t0 :: ts))) clientIP later) = None.
Proof.
  intros Hnew Hts. rewrite knocks_cons. cbn [fst snd].
  assert (Hfirst : rateLimit st clientIP t0
                   = (mkState (db st) (invalidatedTokens st)
                        (<[clientIP := mkRate 1 (t0 + RATE_LIMIT_WINDOW)]> (rateLimitStore st)),
                      None)).
  { unfold rateLimit. rewrite Hnew. reflexivity. }
  rewrite Hfirst. cbn [fst snd].
  assert (Hentry : rateLimitStore
                     (mkState (db st) (invalidatedTokens st)
                        (<[clientIP := mkRate 1 (t0 + RATE_LIMIT_WINDOW)]> (rateLimitStore st)))
                     !! clientIP
                   = Some (mkRate 1 (t0 + RATE_LIMIT_WINDOW))) by apply lookup_insert_eq.
  destruct (knocks_counted ts _ _ _ _ Hentry Hts) as [Hans [n' Hkeep]]. split.
  - rewrite Hans. unfold RATE_LIMIT_MAX_ATTEMPTS.
    change (length (t0 :: ts)) with (S (length ts)).
    replace (min (S (length ts)) 5) with (S (min (length ts) (5 - 1))) by lia.
    replace (S (length ts) - 5) with (length ts - (5 - 1)) by lia. reflexivity.
  - intros later Hlater. unfold rateLimit at 1. rewrite Hkeep. cbn [resetTime].
    destruct (t0 + RATE_LIMIT_WINDOW <? later)%Z eqn:Hlt; [reflexivity|].
    apply Z.ltb_ge in Hlt. lia.
Qed.

Lemma rateLimit_other_address (st : state) (clientIP other : string) (now : Z) :
  other <> clientIP ->
  rateLimitStore (fst (rateLimit st clientIP now)) !! other = rateLimitStore st !! other.
Proof.
  intros Hne. unfold rateLimit. destruct (rateLimitStore st !! clientIP) as [d|].
  - destruct (resetTime d <? now)%Z; [simpl; apply lookup_insert_ne; congruence|].
    destruct (RATE_LIMIT_MAX_ATTEMPTS <=? attempts d)%nat; [reflexivity|].
    simpl; apply lookup_insert_ne; congruence.
  - simpl; apply lookup_insert_ne; congruence.
Qed.

(** What the middleware answers depends on the entry of the address
    alone. *)
Lemma rateLimit_answer (st st' : state) (clientIP : string) (now : Z) :
  rateLimitStore st' !! clientIP = rateLimitStore st !! clientIP ->
  snd (rateLimit st' clientIP now) = snd (rateLimit st clientIP now).
Proof.
  intros H. unfold rateLimit. rewrite H. destruct (rateLimitStore st !! clientIP) as [d|]; [|reflexivity].
  destruct (resetTime d <? now)%Z; [reflexivity|].
  destruct (RATE_LIMIT_MAX_ATTEMPTS <=? attempts d)%nat; reflexivity.
Qed.

(** The allowance is per address: whatever one address sends, another
    address is answered as if nothing had been sent. *)
Theorem rate_limit_is_per_address (st : state) (clientIP other : string) (ts : list Z) (now : Z) :
  other <> clientIP ->
  snd (rateLimit (fst (knocks st clientIP ts)) other now) = snd (rateLimit st other now).
Proof.
  intros Hne. apply rateLimit_answer. revert st.
  induction ts as [|t ts IH]; intros st; [reflexivity|].
  rewrite knocks_cons. cbn [fst]. rewrite IH. apply rateLimit_other_address, Hne.
Qed.

(** ** The rate limit in front of [login] and [register] *)

Lemma serve_cons (st : state) (req : request) (reqs : list request) :
  serve E K sign_expiring st (req :: reqs)
  = (fst (serve E K sign_expiring (fst (handle E K sign_expiring st req)) reqs),
     snd (handle E K sign_expiring st req)
       :: snd (serve E K sign_expiring (fst (handle E K sign_expiring st req)) reqs)).
Proof.
  simpl. destruct (handle E K sign_expiring st req) as [st1 r]. simpl.
  destruct (serve E K sign_expiring st1 reqs) as [st2 rs]. reflexivity.
Qed.

(** A request that goes through [rateLimit] is answered 429 and changes
    nothing once the maximum is on record; before that it is counted and
    answered otherwise. *)
Lemma limited_request (st : state) (clientIP : string) (n : nat) (r : Z) (req : request) :
  rateLimitStore st !! clientIP = Some (mkRate n r) ->
  limited_from clientIP r req ->
  if (RATE_LIMIT_MAX_ATTEMPTS <=? n)%nat
  then handle E K sign_expiring st req
       = (st, Response 429 (error_body "Too many requests. Please try again later."))
  else status (snd (handle E K sign_expiring st req)) <> 429%nat
       /\ rateLimitStore (fst (handle E K sign_expiring st req)) !! clientIP
          = Some (mkRate (S n) r).
Proof.
  intros Hentry Hreq.
  destruct req as [ip now username password email uuid createdAt
                  |ip now username password signedAt
                  |authHeader|authHeader recipientId amount uuid now'
                  |authHeader userId newBalance]; simpl in Hreq; try contradiction;
    destruct Hreq as [-> Hnow]; cbn [handle].
  - unfold register. rewrite (rateLimit_counts _ _ _ _ _ Hentry Hnow).
    destruct (RATE_LIMIT_MAX_ATTEMPTS <=? n)%nat; cbv iota; [reflexivity|].
    assert (Hnew : forall d, rateLimitStore
                     (with_db (mkState (db st) (invalidatedTokens st)
                                 (<[clientIP := mkRate (S n) r]> (rateLimitStore st))) d) !! clientIP
                   = Some (mkRate (S n) r)) by (intros d; apply lookup_insert_eq).
    assert (Hsame : rateLimitStore
                      (mkState (db st) (invalidatedTokens st)
                         (<[clientIP := mkRate (S n) r]> (rateLimitStore st))) !! clientIP
                    = Some (mkRate (S n) r)) by apply lookup_insert_eq.
    destruct username as [name|]; [|split; [discriminate|exact Hsame]].
    destruct password as [pw|]; [|split; [discriminate|exact Hsame]].
    destruct email as [mail|]; [|split; [discriminate|exact Hsame]].
    destruct (String.eqb name "" || String.eqb pw "" || String.eqb mail "");
      [split; [discriminate|exact Hsame]|].
    destruct ((String.length (sanitizeInput name) <? 3)%nat
              || (30 <? String.length (sanitizeInput name))%nat);
      [split; [discriminate|exact Hsame]|].
    destruct (negb (emailRegex_test (sanitizeInput mail)));
      [split; [discriminate|exact Hsame]|].
    destruct (findUserByUsername _ (sanitizeInput name));
      [split; [discriminate|exact Hsame]|].
    destruct (validatePassword pw); (split; [discriminate|]); [exact Hsame|apply Hnew].
  - unfold login. rewrite (rateLimit_counts _ _ _ _ _ Hentry Hnow).
    destruct (RATE_LIMIT_MAX_ATTEMPTS <=? n)%nat; cbv iota; [reflexivity|].
    assert (Hsame : rateLimitStore
                      (mkState (db st) (invalidatedTokens st)
                         (<[clientIP := mkRate (S n) r]> (rateLimitStore st))) !! clientIP
                    = Some (mkRate (S n) r)) by apply lookup_insert_eq.
    destruct username as [name|]; [|split; [discriminate|exact Hsame]].
    destruct password as [pw|]; [|split; [discriminate|exact Hsame]].
    destruct (String.eqb name "" || String.eqb pw ""); [split; [discriminate|exact Hsame]|].
    destruct (findUserByUsername _ (sanitizeInput name)) as [[i user]|];
      [|split; [discriminate|exact Hsame]].
    destruct (bcrypt_compare E pw (u_password user)); split; try discriminate; exact Hsame.
Qed.

(** Of the registrations and logins that one address sends in one window,
    those within the allowance are looked at and the others are answered
    429, whatever they carry: with [n] attempts on record, the answer at
    position [k] has status 429 exactly when [k] is at or past what is left
    of the five. *)
Theorem requests_past_the_allowance_are_refused (st : state) (clientIP : string) (n : nat)
    (r : Z) (reqs : list request) (k : nat) (answer : response) :
  rateLimitStore st !! clientIP = Some (mkRate n r) ->
  Forall (limited_from clientIP r) reqs ->
  snd (serve E K sign_expiring st reqs) !! k = Some answer ->
  status answer = 429%nat <-> RATE_LIMIT_MAX_ATTEMPTS - n <= k.
Proof.
  revert st n k. induction reqs as [|req rest IH]; intros st n k Hentry Hreqs Hk;
    [discriminate|].
  apply Forall_cons in Hreqs as [Hreq Hrest]. rewrite serve_cons in Hk. cbn [snd] in Hk.
  pose proof (limited_request st clientIP n r req Hentry Hreq) as Hone.
  unfold RATE_LIMIT_MAX_ATTEMPTS in *.
  destruct (5 <=? n)%nat eqn:Hmax.
  - apply Nat.leb_le in Hmax. rewrite Hone in Hk. cbn [fst snd] in Hk.
    destruct k as [|k]; simpl in Hk.
    + injection Hk as <-. simpl. split; [lia|reflexivity].
    + rewrite (IH st n k Hentry Hrest Hk). lia.
  - apply Nat.leb_gt in Hmax. destruct Hone as [Hstatus Hnext].
    destruct k as [|k]; simpl in Hk.
    + injection Hk as <-. split; [contradiction|lia].
    + rewrite (IH _ (S n) k Hnext Hrest Hk). lia.
Qed.
(** ** [logout] and the invalidated tokens *)

Lemma rateLimit_parts (st : state) (clientIP : string) (now : Z) :
  db (fst (rateLimit st clientIP now)) = db st
  /\ invalidatedTokens (fst (rateLimit st clientIP now)) = invalidatedTokens st.
Proof. split; [apply SecureFacts.rateLimit_db|apply rateLimit_keeps_revoked]. Qed.

(** No request takes a token off the set of the invalidated ones. *)
Lemma handle_keeps_revoked (st : state) (req : request) :
  invalidatedTokens st ⊆ invalidatedTokens (fst (handle E K sign_expiring st req)).
Proof.
  destruct req as [ip now username password email uuid createdAt
                  |ip now username password signedAt
                  |authHeader|authHeader recipientId amount uuid now'
                  |authHeader userId newBalance]; cbn [handle].
  - unfold register. pose proof (rateLimit_keeps_revoked st ip now) as Hrev.
    destruct (rateLimit st ip now) as [st1 [r1|]]; cbn [fst snd] in *; rewrite <- Hrev; [done|].
    destruct username as [name|]; [|done].
    destruct password as [pw|]; [|done].
    destruct email as [mail|]; [|done].
    destruct (String.eqb name "" || String.eqb pw "" || String.eqb mail ""); [done|].
    destruct ((String.length (sanitizeInput name) <? 3)%nat
              || (30 <? String.length (sanitizeInput name))%nat); [done|].
    destruct (negb (emailRegex_test (sanitizeInput mail))); [done|].
    destruct (findUserByUsername _ (sanitizeInput name)); [done|].
    destruct (validatePassword pw); done.
  - unfold login. pose proof (rateLimit_keeps_revoked st ip now) as Hrev.
    destruct (rateLimit st ip now) as [st1 [r1|]]; cbn [fst snd] in *; rewrite <- Hrev; [done|].
    destruct username as [name|]; [|done].
    destruct password as [pw|]; [|done].
    destruct (String.eqb name "" || String.eqb pw ""); [done|].
    destruct (findUserByUsername _ (sanitizeInput name)) as [[i user]|]; [|done].
    destruct (bcrypt_compare E pw (u_password user)); done.
  - unfold logout. destruct (authenticateToken E K st authHeader); [done|].
    destruct (bearer_token authHeader) as [token|]; [|done].
    cbn [fst invalidatedTokens]. set_solver.
  - unfold send. destruct (authenticateToken E K st authHeader) as [r0|caller]; [done|].
    destruct recipientId as [rid|]; [|done].
    destruct amount as [amt|]; [|done].
    destruct (String.eqb rid "" || falsy_num amt); [done|].
    destruct (PrimFloat.is_nan amt || (amt <=? 0)%float || (1000000 <? amt)%float); [done|].
    destruct (findUserById (users (db st)) (c_userId caller)) as [[i sender]|]; [|done].
    destruct (findUserById (users (db st)) rid) as [[j recipient]|]; [|done].
    destruct (String.eqb (u_id sender) (u_id recipient)); [done|].
    destruct (u_balance sender <? round2 amt)%float; done.
  - unfold admin_modify_balance.
    destruct (authenticateToken E K st authHeader) as [r0|caller]; [done|].
    destruct (requireAdmin caller); [done|].
    destruct userId as [uid|]; [|done].
    destruct newBalance as [b|]; [|done].
    destruct (String.eqb uid ""); [done|].
    destruct (PrimFloat.is_nan b || (b <? 0)%float || (10000000 <? b)%float); [done|].
    destruct (findUserById (users (db st)) uid) as [[i found]|]; done.
Qed.

Lemma serve_keeps_revoked (reqs : list request) (st : state) :
  invalidatedTokens st ⊆ invalidatedTokens (fst (serve E K sign_expiring st reqs)).
Proof.
  revert st. induction reqs as [|req rest IH]; intros st; [done|].
  rewrite serve_cons. cbn [fst].
  etransitivity; [apply (handle_keeps_revoked st req)|apply IH].
Qed.

(** What a successful logout does: the token of the header joins the set,
    and nothing else changes. *)
Lemma logout_succeeds (st st' : state) (authHeader : option string) (r : response) :
  logout E K st authHeader = (st', r) -> status r = 200%nat ->
  exists token, bearer_token authHeader = Some token
                /\ st' = mkState (db st) ({[ token ]} ∪ invalidatedTokens st) (rateLimitStore st).
Proof.
  unfold logout. intros Hout Hok.
  destruct (authenticateToken E K st authHeader) as [r0|caller] eqn:Hauth.
  { injection Hout as _ <-. apply SecureFacts.secure_refusal_status in Hauth.
    rewrite Hok in Hauth. destruct Hauth; discriminate. }
  unfold authenticateToken in Hauth.
  destruct (bearer_token authHeader) as [token|]; [|discriminate].
  injection Hout as <- _. exists token. split; reflexivity.
Qed.

(** A logout is final: once a logout has been answered with status 200,
    the header it came with is refused by the middleware with [403 Token has
    been invalidated], whatever requests are handled in between. *)
Theorem logout_is_final (st st' : state) (authHeader : option string) (r : response)
    (reqs : list request) :
  logout E K st authHeader = (st', r) -> status r = 200%nat ->
  authenticateToken E K (fst (serve E K sign_expiring st' reqs)) authHeader
  = inl (Response 403 (error_body "Token has been invalidated")).
Proof.
  intros Hout Hok.
  destruct (logout_succeeds _ _ _ _ Hout Hok) as (token & Htoken & ->).
  unfold authenticateToken. rewrite Htoken.
  rewrite bool_decide_eq_true_2; [reflexivity|].
  apply (serve_keeps_revoked reqs). cbn [invalidatedTokens]. set_solver.
Qed.

(** A logout touches one token only: the users, the ledger and the rate
    limits are as before, and a header that carries another token, or none,
    is answered by the middleware as before. *)
Theorem logout_spares_other_tokens (st st' : state) (authHeader other : option string)
    (r : response) :
  logout E K st authHeader = (st', r) -> status r = 200%nat ->
  bearer_token other <> bearer_token authHeader ->
  db st' = db st /\ rateLimitStore st' = rateLimitStore st
  /\ authenticateToken E K st' other = authenticateToken E K st other.
Proof.
  intros Hout Hok Hother.
  destruct (logout_succeeds _ _ _ _ Hout Hok) as (token & Htoken & ->).
  split; [reflexivity|]. split; [reflexivity|].
  unfold authenticateToken. destruct (bearer_token other) as [token'|]; [|reflexivity].
  cbn [invalidatedTokens db].
  assert (Hne : token' <> token) by (rewrite Htoken in Hother; congruence).
  assert (Hiff : token' ∈ {[ token ]} ∪ invalidatedTokens st <-> token' ∈ invalidatedTokens st).
  { rewrite elem_of_union, elem_of_singleton. tauto. }
  rewrite (bool_decide_ext _ _ Hiff). reflexivity.
Qed.
(** ** Registration, then login *)

(** What a successful registration leaves. *)
Lemma register_succeeds (st st' : state) (clientIP : string) (now : Z)
    (username password email : option string) (uuid createdAt : string) (r : response) :
  register E st clientIP now username password email uuid createdAt = (st', r) ->
  status r = 201%nat ->
  exists name pw mail,
    username = Some name /\ password = Some pw /\ email = Some mail
    /\ name <> "" /\ pw <> ""
    /\ 3 <= String.length (sanitizeInput name) <= 30
    /\ findUserByUsername (users (db st)) (sanitizeInput name) = None
    /\ validatePassword pw = None
    /\ db st' = mkStore (users (db st)
                           ++ [mkUser uuid (sanitizeInput name) (Some (sanitizeInput mail))
                                 (bcrypt_hash E pw 12) 1000 "user" (Some createdAt)])
                        (transactions (db st)).
Proof.
  unfold register. intros Hreg Hok.
  pose proof (SecureFacts.rateLimit_db st clientIP now) as Hdb.
  pose proof (SecureFacts.rateLimit_refusal st clientIP now) as Hno.
  destruct (rateLimit st clientIP now) as [st1 [r1|]]; cbn [fst snd] in *.
  { injection Hreg as _ <-. rewrite (Hno r1 eq_refl) in Hok. discriminate. }
  destruct username as [name|]; [|injection Hreg as _ <-; discriminate].
  destruct password as [pw|]; [|injection Hreg as _ <-; discriminate].
  destruct email as [mail|]; [|injection Hreg as _ <-; discriminate].
  destruct (String.eqb name "" || String.eqb pw "" || String.eqb mail "") eqn:Hreq;
    [injection Hreg as _ <-; discriminate|].
  destruct ((String.length (sanitizeInput name) <? 3)%nat
            || (30 <? String.length (sanitizeInput name))%nat) eqn:Hlen;
    [injection Hreg as _ <-; discriminate|].
  destruct (negb (emailRegex_test (sanitizeInput mail))); [injection Hreg as _ <-; discriminate|].
  destruct (findUserByUsername (users (db st1)) (sanitizeInput name)) eqn:Hfree;
    [injection Hreg as _ <-; discriminate|].
  destruct (validatePassword pw) eqn:Hpw; [injection Hreg as _ <-; discriminate|].
  injection Hreg as <- _. rewrite Hdb in *.
  apply orb_false_iff in Hreq as [Hreq _]. apply orb_false_iff in Hreq as [Hname Hpass].
  apply String.eqb_neq in Hname, Hpass.
  apply orb_false_iff in Hlen as [Hlo Hhi]. apply Nat.ltb_ge in Hlo, Hhi.
  exists name, pw, mail. do 5 (split; [reflexivity || assumption|]).
  split; [lia|]. split; [assumption|]. split; [assumption|reflexivity].
Qed.


(** ** [GET /api/users] *)

(** The list for the recipient drop-down has an entry, of id and user name
    and nothing else, for every user on record but the caller, in the order
    of the store. *)
Theorem get_users_leaves_out_the_caller (st : state) (authHeader : option string)
    (caller : Claims) :
  authenticateToken E K st authHeader = inr caller ->
  exists listed : list User,
    get_users E K st authHeader
    = Response 200
        (JObj [("users",
                JArr (map (fun u => JObj [("id", JStr (u_id u)); ("username", JStr (u_username u))])
                        listed))])
    /\ listed `sublist_of` users (db st)
    /\ forall u, u ∈ listed <-> u ∈ users (db st) /\ u_id u <> c_userId caller.
Proof.
  intros Hauth. exists (filter (fun u => u_id u <> c_userId caller) (users (db st))).
  unfold get_users. rewrite Hauth. split; [reflexivity|]. split.
  - apply sublist_filter.
  - intros u. rewrite list_elem_of_filter. split; intros [H1 H2]; split; assumption.
Qed.
(** ** [validatePassword] and [sanitizeInput] *)

Lemma strong_line_finds (s : string) (lo up di : bool) :
  all_chars (fun c => negb (is_line_end c)) s = true ->
  s <> "" ->
  (lo || has_char is_lower s) && (up || has_char is_upper s) && (di || has_char is_digit s) = true ->
  strong_line lo up di s = true.
Proof.
  revert lo up di. induction s as [|c s IH]; intros lo up di Hline Hne Hall; [congruence|].
  simpl in Hline. apply andb_true_iff in Hline as [Hc Hline].
  apply negb_true_iff in Hc. simpl. rewrite Hc.
  simpl has_char in Hall. rewrite !orb_assoc in Hall.
  destruct ((lo || is_lower c) && (up || is_upper c) && (di || is_digit c)) eqn:Hnow;
    [reflexivity|].
  simpl. apply IH; [exact Hline| |exact Hall].
  intros ->. simpl in Hall. rewrite !orb_false_r in Hall. congruence.
Qed.

(** For a password of one line, [validatePassword] returns [null] exactly
    when the password has 8 characters or more and among them a lower-case
    letter, an upper-case letter and a digit. *)
Theorem validatePassword_on_one_line (pw : string) :
  all_chars (fun c => negb (is_line_end c)) pw = true ->
  validatePassword pw = None
  <-> 8 <= String.length pw
      /\ has_char is_lower pw = true /\ has_char is_upper pw = true
      /\ has_char is_digit pw = true.
Proof.
  intros Hline. split; [apply SecureFacts.validatePassword_accepts|].
  intros (Hlen & Hlo & Hup & Hdi). unfold validatePassword.
  assert (Hne : pw <> "") by (intros ->; simpl in Hlen; lia).
  apply String.eqb_neq in Hne as Hne'. rewrite Hne'.
  apply Nat.ltb_ge in Hlen. rewrite Hlen. cbn [orb].
  rewrite strong_line_finds; [reflexivity|exact Hline|exact Hne|].
  rewrite Hlo, Hup, Hdi. reflexivity.
Qed.

Lemma strip_angle_lacks (s : string) :
  lacks "<" (strip_angle s) = true /\ lacks ">" (strip_angle s) = true.
Proof.
  induction s as [|c s [IH1 IH2]]; [split; reflexivity|].
  simpl. destruct (Ascii.eqb c "<") eqn:Hlt; [split; assumption|].
  destruct (Ascii.eqb c ">") eqn:Hgt; [split; assumption|].
  simpl. rewrite Hlt, Hgt, IH1, IH2. split; reflexivity.
Qed.

(** What [sanitizeInput] returns has no angle bracket.  It may still begin
    or end with a blank, so that sanitizing twice is not sanitizing once. *)
Theorem sanitizeInput_removes_angle_brackets :
  (forall input, lacks "<" (sanitizeInput input) = true
                 /\ lacks ">" (sanitizeInput input) = true)
  /\ sanitizeInput "< abc" = " abc"
  /\ sanitizeInput (sanitizeInput "< abc") = "abc".
Proof.
  split; [intros input; apply strip_angle_lacks|]. split; reflexivity.
Qed.
(** ** What the requests do to the users and the ledger *)

(** The four things a request can do to the users and the ledger: nothing;
    add a user, on a registration answered 201; move money and record it,
    on a transfer answered 200; set one balance, on an admin request
    answered 200. *)
Lemma handle_db (st : state) (req : request) :
  db (fst (handle E K sign_expiring st req)) = db st
  \/ (status (snd (handle E K sign_expiring st req)) = 201%nat
      /\ exists name newUser,
           findUserByUsername (users (db st)) (sanitizeInput name) = None
           /\ 3 <= String.length (sanitizeInput name) <= 30
           /\ u_username newUser = sanitizeInput name
           /\ db (fst (handle E K sign_expiring st req))
              = mkStore (users (db st) ++ [newUser]) (transactions (db st)))
  \/ (status (snd (handle E K sign_expiring st req)) = 200%nat
      /\ exists (caller : Claims) (rid : string) (amt : float) (i j : nat) (uuid now : string),
           c_userId caller <> rid
           /\ (amt <=? 0)%float = false /\ PrimFloat.is_nan amt = false
           /\ db (fst (handle E K sign_expiring st req))
              = mkStore (alter (credit (round2 amt)) j (alter (debit (round2 amt)) i (users (db st))))
                        (transactions (db st)
                           ++ [mkTransaction uuid (c_userId caller) rid (round2 amt) now "transfer"]))
  \/ (status (snd (handle E K sign_expiring st req)) = 200%nat
      /\ exists (i : nat) (b : float),
           db (fst (handle E K sign_expiring st req))
           = mkStore (alter (set_balance b) i (users (db st))) (transactions (db st))).
Proof.
  destruct req as [ip now username password email uuid createdAt
                  |ip now username password signedAt
                  |authHeader|authHeader recipientId amount uuid now'
                  |authHeader userId newBalance]; cbn [handle].
  - destruct (register E st ip now username password email uuid createdAt) as [st' r] eqn:Hreg.
    destruct (decide (status r = 201%nat)) as [Hok|Hfail].
    + right. left. split; [exact Hok|].
      destruct (register_succeeds _ _ _ _ _ _ _ _ _ _ Hreg Hok)
        as (name & pw & mail & _ & _ & _ & _ & _ & Hlen & Hfree & _ & Hdb).
      exists name. eexists. split; [exact Hfree|]. split; [exact Hlen|].
      split; [|exact Hdb]. reflexivity.
    + left. cbn [fst snd]. revert Hreg. unfold register.
      pose proof (SecureFacts.rateLimit_db st ip now) as Hdb.
      destruct (rateLimit st ip now) as [st1 [r1|]]; cbn [fst] in Hdb;
        [intros [= <- _]; exact Hdb|].
      destruct username as [name|]; [|intros [= <- _]; exact Hdb].
      destruct password as [pw|]; [|intros [= <- _]; exact Hdb].
      destruct email as [mail|]; [|intros [= <- _]; exact Hdb].
      destruct (String.eqb name "" || String.eqb pw "" || String.eqb mail "");
        [intros [= <- _]; exact Hdb|].
      destruct ((String.length (sanitizeInput name) <? 3)%nat
                || (30 <? String.length (sanitizeInput name))%nat); [intros [= <- _]; exact Hdb|].
      destruct (negb (emailRegex_test (sanitizeInput mail))); [intros [= <- _]; exact Hdb|].
      destruct (findUserByUsername _ (sanitizeInput name)); [intros [= <- _]; exact Hdb|].
      destruct (validatePassword pw); [intros [= <- _]; exact Hdb|].
      intros [= _ <-]. contradiction Hfail. reflexivity.
  - left. unfold login.
    pose proof (SecureFacts.rateLimit_db st ip now) as Hdb.
    destruct (rateLimit st ip now) as [st1 [r1|]]; cbn [fst] in Hdb; [exact Hdb|].
    destruct username as [name|]; [|exact Hdb].
    destruct password as [pw|]; [|exact Hdb].
    destruct (String.eqb name "" || String.eqb pw ""); [exact Hdb|].
    destruct (findUserByUsername _ (sanitizeInput name)) as [[i user]|]; [|exact Hdb].
    destruct (bcrypt_compare E pw (u_password user)); exact Hdb.
  - left. unfold logout. destruct (authenticateToken E K st authHeader); [reflexivity|].
    destruct (bearer_token authHeader); reflexivity.
  - unfold send.
    destruct (authenticateToken E K st authHeader) as [r0|caller]; [left; reflexivity|].
    destruct recipientId as [rid|]; [|left; reflexivity].
    destruct amount as [amt|]; [|left; reflexivity].
    destruct (String.eqb rid "" || falsy_num amt); [left; reflexivity|].
    destruct (PrimFloat.is_nan amt || (amt <=? 0)%float || (1000000 <? amt)%float) eqn:Hguard;
      [left; reflexivity|].
    destruct (findUserById (users (db st)) (c_userId caller)) as [[i sender]|] eqn:Hs;
      [|left; reflexivity].
    destruct (findUserById (users (db st)) rid) as [[j recipient]|] eqn:Hr; [|left; reflexivity].
    destruct (String.eqb (u_id sender) (u_id recipient)) eqn:Hself; [left; reflexivity|].
    destruct (u_balance sender <? round2 amt)%float; [left; reflexivity|].
    right. right. left. split; [reflexivity|].
    apply orb_false_iff in Hguard as [Hguard _]. apply orb_false_iff in Hguard as [Hnan Hpos].
    apply findUserById_Some in Hs as [_ Hsid]. apply findUserById_Some in Hr as [_ Hrid].
    apply String.eqb_neq in Hself. rewrite Hsid, Hrid in Hself.
    exists caller, rid, amt, i, j, uuid, now'. repeat (split; [assumption|]). reflexivity.
  - unfold admin_modify_balance.
    destruct (authenticateToken E K st authHeader) as [r0|caller]; [left; reflexivity|].
    destruct (requireAdmin caller); [left; reflexivity|].
    destruct userId as [uid|]; [|left; reflexivity].
    destruct newBalance as [b|]; [|left; reflexivity].
    destruct (String.eqb uid ""); [left; reflexivity|].
    destruct (PrimFloat.is_nan b || (b <? 0)%float || (10000000 <? b)%float); [left; reflexivity|].
    destruct (findUserById (users (db st)) uid) as [[i found]|]; [|left; reflexivity].
    right. right. right. split; [reflexivity|]. exists i, (round2 b). reflexivity.
Qed.

(** A request that is not answered with status 200 or 201 leaves the users
    and the ledger exactly as they were. *)
Theorem secure_failed_request_changes_nothing (st : state) (req : request) :
  status (snd (handle E K sign_expiring st req)) <> 200%nat ->
  status (snd (handle E K sign_expiring st req)) <> 201%nat ->
  db (fst (handle E K sign_expiring st req)) = db st.
Proof.
  intros H200 H201.
  destruct (handle_db st req) as [Hsame|[[Hok _]|[[Hok _]|[Hok _]]]];
    [exact Hsame|contradiction..].
Qed.



Lemma secure_handle_appends (st : state) (req : request) :
  exists new,
    transactions (db (fst (handle E K sign_expiring st req))) = transactions (db st) ++ new
    /\ length new <= 1
    /\ Forall (fun t => t_type t = "transfer" /\ t_senderId t <> t_recipientId t
                        /\ (0 <=? t_amount t)%float = true) new.
Proof.
  destruct (handle_db st req)
    as [->|[[_ (name & newUser & _ & _ & _ & ->)]
           |[[_ (caller & rid & amt & i & j & uuid & now & Hne & Hpos & Hnan & ->)]
            |[_ (i & b & ->)]]]]; cbn [transactions].
  1, 2, 4: exists []; rewrite app_nil_r; repeat split; [simpl; lia|constructor].
  eexists. split; [reflexivity|]. split; [simpl; lia|].
  constructor; [|constructor]. split; [reflexivity|]. split; [exact Hne|]. simpl.
  apply Binary64.round2_nonneg, Binary64.positive_is_nonneg; assumption.
Qed.

(** The ledger is append-only: requests handled one after the other keep
    the transactions on record as they are, in their order, and add, one
    per request at most, transfers between two different ids of an amount
    that is a number at or above zero. *)
Theorem secure_ledger_is_append_only (st : state) (reqs : list request) :
  exists new,
    transactions (db (fst (serve E K sign_expiring st reqs))) = transactions (db st) ++ new
    /\ length new <= length reqs
    /\ Forall (fun t => t_type t = "transfer" /\ t_senderId t <> t_recipientId t
                        /\ (0 <=? t_amount t)%float = true) new.
Proof.
  revert st. induction reqs as [|req rest IH]; intros st.
  - exists []. simpl. rewrite app_nil_r. repeat split; [lia|constructor].
  - rewrite serve_cons. cbn [fst].
    destruct (secure_handle_appends st req) as (new1 & H1 & Hl1 & Hf1).
    destruct (IH (fst (handle E K sign_expiring st req))) as (new2 & H2 & Hl2 & Hf2).
    exists (new1 ++ new2). rewrite H2, H1, app_assoc. split; [reflexivity|].
    split; [rewrite length_app; simpl; lia|]. apply Forall_app. split; assumption.
Qed.
End Flows.

End SecureFlows.
(** * What the answers never carry *)

Module Disclosure.


Lemma error_body_has_no_password (msg : string) : has_key "password" (error_body msg) = false.
Proof. reflexivity. Qed.


Section InsecureAnswers.

Import Insecure.

Variable E : Externals.




End InsecureAnswers.

Section SecureAnswers.

Import Secure.

Variable E : Externals.
Variable K : string.
Variable sign_expiring : Claims -> Z -> string -> string -> string.







End SecureAnswers.

End Disclosure.
(** * The flows on the concrete run *)

Module FlowRuns.

Import Scenario.

(** A transfer sent without a token is refused and changes nothing. *)
Lemma failed_request_witness :
  fst (Insecure.handle double with_bob
         (Insecure.Send None (Some "id-bob") (Some 10%float) "tx-1" "t1"))
  = with_bob.
Proof.
  apply (InsecureFlows.failed_request_changes_nothing double with_bob
           (Insecure.Send None (Some "id-bob") (Some 10%float) "tx-1" "t1")).
  - discriminate.
  - discriminate.
Defined.

(** Alice sets bob's balance to 5 and reads 5 back. *)
Lemma modify_then_read_witness :
  Insecure.get_balance double
    (fst (Insecure.admin_modify_balance double with_bob alice_header "id-bob" 5%float))
    alice_header "id-bob"
  = Response 200 (JObj [("balance", JNum 5)]).
Proof.
  apply (InsecureFlows.modify_then_read_balance double with_bob alice_header
           (mkClaims "id-alice" "alice" "user") "id-bob" 5%float 2
           (mkUser "id-bob" "bob" (Some "bob@wallet.com") "$2a$456" 1000 "user" None)).
  - reflexivity.
  - reflexivity.
Defined.

(** Alice sends bob 25 and then reads the balance the transfer reported. *)
Lemma new_balance_witness :
  exists (caller : Claims) (b : float),
    Insecure.authenticateToken double alice_header = inr caller
    /\ field "newBalance"
         (body (snd (Insecure.send double with_bob alice_header (Some "id-bob") (Some 25%float)
                       "tx-1" "t1")))
       = Some (JNum b)
    /\ Insecure.get_balance double
         (fst (Insecure.send double with_bob alice_header (Some "id-bob") (Some 25%float)
                 "tx-1" "t1"))
         alice_header (c_userId caller)
       = Response 200 (JObj [("balance", JNum b)]).
Proof.
  apply (InsecureFlows.new_balance_is_the_stored_balance double with_bob _ alice_header
           (Some "id-bob") (Some 25%float) "tx-1" "t1").
  - reflexivity.
  - reflexivity.
Defined.

Lemma transfer_histories_witness :
  exists (caller : Claims) (rid : string) (amt : float),
    Insecure.authenticateToken double alice_header = inr caller
    /\ Some "id-bob" = Some rid /\ Some 25%float = Some amt
    /\ (forall userId, userId = c_userId caller \/ userId = rid ->
        filter (fun t => involves userId t)
          (transactions (fst (Insecure.send double with_bob alice_header (Some "id-bob")
                                (Some 25%float) "tx-1" "t1")))
        = filter (fun t => involves userId t) (transactions with_bob)
            ++ [mkTransaction "tx-1" (c_userId caller) rid amt "t1" "transfer"])
    /\ (forall userId, userId <> c_userId caller -> userId <> rid ->
        Insecure.get_transactions double
          (fst (Insecure.send double with_bob alice_header (Some "id-bob") (Some 25%float)
                  "tx-1" "t1"))
          alice_header userId
        = Insecure.get_transactions double with_bob alice_header userId).
Proof.
  apply (InsecureFlows.transfer_is_on_both_histories double with_bob _ alice_header
           (Some "id-bob") (Some 25%float) "tx-1" "t1"
           (snd (Insecure.send double with_bob alice_header (Some "id-bob") (Some 25%float)
                   "tx-1" "t1"))).
  - reflexivity.
  - reflexivity.
Defined.



(** Seven requests from one address within a quarter of an hour: five are
    let in, two are not; a request after the window is let in. *)
Lemma rate_limit_witness :
  snd (Secure.knocks secure_started "10.0.0.9" [0; 1; 2; 3; 4; 5; 900000]%Z)
  = replicate (min (length [0; 1; 2; 3; 4; 5; 900000]%Z) Secure.RATE_LIMIT_MAX_ATTEMPTS) None
    ++ replicate (length [0; 1; 2; 3; 4; 5; 900000]%Z - Secure.RATE_LIMIT_MAX_ATTEMPTS)
         (Some (Response 429 (error_body "Too many requests. Please try again later.")))
  /\ forall later, (0 + Secure.RATE_LIMIT_WINDOW < later)%Z ->
       snd (Secure.rateLimit
              (fst (Secure.knocks secure_started "10.0.0.9" [0; 1; 2; 3; 4; 5; 900000]%Z))
              "10.0.0.9" later) = None.
Proof.
  apply (SecureFlows.rate_limit_allows_five_per_window secure_started "10.0.0.9" 0
           [1; 2; 3; 4; 5; 900000]%Z).
  - reflexivity.
  - repeat constructor; unfold Secure.RATE_LIMIT_WINDOW; lia.
Defined.

Lemma rate_limit_per_address_witness :
  snd (Secure.rateLimit (fst (Secure.knocks secure_started "10.0.0.9" [0; 1; 2; 3; 4; 5]%Z))
         "10.0.0.8" 6)
  = snd (Secure.rateLimit secure_started "10.0.0.8" 6).
Proof.
  apply (SecureFlows.rate_limit_is_per_address secure_started "10.0.0.9" "10.0.0.8"
           [0; 1; 2; 3; 4; 5]%Z 6).
  discriminate.
Defined.

(** Bob's address has one attempt on record, of his registration; of five
    logins that follow, alice's among them, the fifth is answered 429. *)
Lemma allowance_witness :
  status (Response 429 (error_body "Too many requests. Please try again later.")) = 429%nat
  <-> Secure.RATE_LIMIT_MAX_ATTEMPTS - 1 <= 4.
Proof.
  apply (SecureFlows.requests_past_the_allowance_are_refused double secret sign_expiring
           secure_with_bob "10.0.0.2" 1 (2000 + Secure.RATE_LIMIT_WINDOW)
           [Secure.Login "10.0.0.2" 3000 (Some "bob") (Some "wrong") 3000;
            Secure.Login "10.0.0.2" 3001 (Some "bob") (Some "Passw0rd") 3001;
            Secure.Login "10.0.0.2" 3002 None None 3002;
            Secure.Register "10.0.0.2" 3003 (Some "carol") (Some "Password1")
              (Some "carol@wallet.com") "id-carol" "t";
            Secure.Login "10.0.0.2" 3004 (Some "alice") (Some "Password1") 3004]
           4).
  - reflexivity.
  - repeat constructor; unfold Secure.RATE_LIMIT_WINDOW; lia.
  - reflexivity.
Defined.

(** Alice logs out; bob then sends money, and alice's token is still
    refused, while bob's was not touched by the logout. *)
Lemma logout_is_final_witness :
  Secure.authenticateToken double secret
    (fst (Secure.serve double secret sign_expiring
            (fst (Secure.logout double secret secure_with_bob alice_token))
            [Secure.Send bob_token (Some "id-alice") (Some 10%float) "tx-1" "t1"]))
    alice_token
  = inl (Response 403 (error_body "Token has been invalidated")).
Proof.
  apply (SecureFlows.logout_is_final double secret sign_expiring secure_with_bob _ alice_token
           (snd (Secure.logout double secret secure_with_bob alice_token))).
  - reflexivity.
  - reflexivity.
Defined.

Lemma logout_spares_witness :
  Secure.db (fst (Secure.logout double secret secure_with_bob alice_token)) = Secure.db secure_with_bob
  /\ Secure.rateLimitStore (fst (Secure.logout double secret secure_with_bob alice_token))
     = Secure.rateLimitStore secure_with_bob
  /\ Secure.authenticateToken double secret
       (fst (Secure.logout double secret secure_with_bob alice_token)) bob_token
     = Secure.authenticateToken double secret secure_with_bob bob_token.
Proof.
  apply (SecureFlows.logout_spares_other_tokens double secret secure_with_bob _ alice_token
           bob_token (snd (Secure.logout double secret secure_with_bob alice_token))).
  - reflexivity.
  - reflexivity.
  - discriminate.
Defined.


Lemma get_users_witness :
  exists listed : list User,
    Secure.get_users double secret secure_with_bob alice_token
    = Response 200
        (JObj [("users",
                JArr (map (fun u => JObj [("id", JStr (u_id u)); ("username", JStr (u_username u))])
                        listed))])
    /\ listed `sublist_of` users (Secure.db secure_with_bob)
    /\ forall u, u ∈ listed <-> u ∈ users (Secure.db secure_with_bob) /\ u_id u <> "id-alice".
Proof.
  apply (SecureFlows.get_users_leaves_out_the_caller double secret secure_with_bob alice_token
           (mkClaims "id-alice" "alice" "user")).
  reflexivity.
Defined.

(** [Passw0rd] is accepted. *)
Lemma validatePassword_witness :
  Secure.validatePassword "Passw0rd" = None
  <-> 8 <= String.length "Passw0rd"
      /\ Secure.has_char Secure.is_lower "Passw0rd" = true
      /\ Secure.has_char Secure.is_upper "Passw0rd" = true
      /\ Secure.has_char Secure.is_digit "Passw0rd" = true.
Proof.
  apply (SecureFlows.validatePassword_on_one_line "Passw0rd").
  reflexivity.
Defined.

(** A login with a wrong password leaves the users and the ledger alone. *)
Lemma secure_failed_request_witness :
  Secure.db (fst (Secure.handle double secret sign_expiring secure_with_bob
             (Secure.Login "10.0.0.1" 5000 (Some "alice") (Some "guess") 5000)))
  = Secure.db secure_with_bob.
Proof.
  apply (SecureFlows.secure_failed_request_changes_nothing double secret sign_expiring
           secure_with_bob (Secure.Login "10.0.0.1" 5000 (Some "alice") (Some "guess") 5000)).
  - discriminate.
  - discriminate.
Defined.

End FlowRuns.
